(** * animal_shop: the data-access layer, embedded and verified

    Three Python files are modelled:
    - [app/dao.py]: data access through SQL text ([AnimalsDAO],
      [AnimalCentersDAO], [SpeciesDAO]);
    - [app/dao_models.py]: data access through the ORM ([AnimalORM],
      [AnimalCenterORM], [SpeciesORM]);
    - [app/models.py]: the mapped classes and their own methods
      ([AnimalCenter], [Animal], [Species]).

    The database is a record of tables; every operation is a computation
    in a state-and-exception monad over it.  What the code calls but does
    not define (the SQL engine's row order and extra constraints, the
    password-hash check of werkzeug, the text form of floats) is collected
    in the class [Backend].

    The operations that read, update, delete and insert animals and
    species are modelled; [create_access_request] and [set_password] are
    not. *)

From Stdlib Require Import ZArith DecimalString DecimalZ DecimalPos.
From Stdlib.Floats Require Import SpecFloat.
From stdpp Require Import base option list gmap strings.

Local Open Scope Z_scope.
Local Open Scope string_scope.

(** ** Python values and exceptions *)

(** The values that occur in rows and in field mappings: [None], [int],
    [float] and [str].  A float is only stored, returned and formatted,
    so it is carried as its IEEE-754 description. *)
Inductive value :=
  | VNone
  | VInt (n : Z)
  | VFloat (f : spec_float)
  | VStr (s : string).

(** A Python [dict] with string keys. *)
Abbreviation dict := (gmap string value).

(** A row as the SQL layer returns it: the selected columns in order, each
    reachable by position ([record[0]]) and by name ([record.id]). *)
Abbreviation Row := (list (string * value)).

Inductive exn :=
  | AttributeError        (* attribute missing, also on [None] *)
  | TypeError             (* [None[0]] *)
  | KeyError              (* [dict.pop] of a missing key *)
  | IndexError            (* a row has no such position *)
  | UnboundLocalError     (* a local read before assignment *)
  | UnmappedInstanceError (* [session.delete] of an unmapped object *)
  | SQLAlchemyError.      (* the engine refused a statement or a flush
                             (SQLAlchemyError and its kin) *)

Inductive outcome (A : Type) :=
  | Return (a : A)
  | Raise (e : exn).
Arguments Return {A} a.
Arguments Raise {A} e.

#[global] Instance outcome_ret : MRet outcome := @Return.
#[global] Instance outcome_bind : MBind outcome := λ A B f m,
  match m with
  | Return a => f a
  | Raise e => Raise e
  end.

#[global] Instance outcome_fmap : FMap outcome := λ A B f m,
  match m with
  | Return a => Return (f a)
  | Raise e => Raise e
  end.

#[global] Instance spec_float_eq_dec : EqDecision spec_float.
Proof. solve_decision. Defined.
#[global] Instance value_eq_dec : EqDecision value.
Proof. solve_decision. Defined.

(** Conversions between nullable columns and Python values. *)
Definition py_int (c : option Z) : value := from_option VInt VNone c.
Definition py_str (c : option string) : value := from_option VStr VNone c.
Definition py_float (c : option spec_float) : value := from_option VFloat VNone c.

(** ** The schema of [models.py] *)

Module animal_center.
(** [class AnimalCenter(db.Model)]: table [animal_center]. *)
Record row := mk {
  id : Z;                          (* Integer, primary key *)
  login : option string;           (* String(20)  *)
  password_hash : option string;   (* String(256) *)
  address : option string          (* String(200) *)
}.

#[global] Instance center_eq_dec : EqDecision row.
Proof. solve_decision. Defined.

(** [SELECT * FROM animal_center]: the columns in declaration order. *)
Definition to_row (c : row) : Row :=
  [("id", VInt (id c)); ("login", py_str (login c));
   ("password_hash", py_str (password_hash c));
   ("address", py_str (address c))].
End animal_center.

Module animal.
(** [class Animal(db.Model)]: table [animal]. *)
Record row := mk {
  id : Z;                          (* Integer, primary key *)
  center_id : option Z;            (* Integer, FK animal_center.id *)
  name : option string;            (* String(40)  *)
  description : option string;     (* String(500), nullable *)
  age : option Z;                  (* Integer *)
  species_id : option Z;           (* Integer, FK species.id *)
  price : option spec_float        (* Float, nullable *)
}.

#[global] Instance animal_eq_dec : EqDecision row.
Proof. solve_decision. Defined.

(** [SELECT * FROM animal]: the columns in declaration order. *)
Definition to_row (a : row) : Row :=
  [("id", VInt (id a)); ("center_id", py_int (center_id a));
   ("name", py_str (name a)); ("description", py_str (description a));
   ("age", py_int (age a)); ("species_id", py_int (species_id a));
   ("price", py_float (price a))].

(** The column attributes of a loaded instance, as a mapping. *)
Definition attrs (a : row) : dict := list_to_map (to_row a).
End animal.

Module species.
(** [class Species(db.Model)]: table [species]. *)
Record row := mk {
  id : Z;                          (* Integer, primary key *)
  name : option string;            (* String(40)  *)
  description : option string;     (* String(500), nullable *)
  price : option spec_float        (* Float, nullable *)
}.

#[global] Instance species_eq_dec : EqDecision row.
Proof. solve_decision. Defined.

(** [SELECT * FROM species]: the columns in declaration order. *)
Definition to_row (s : row) : Row :=
  [("id", VInt (id s)); ("name", py_str (name s));
   ("description", py_str (description s)); ("price", py_float (price s))].
End species.

(** [record.animals] on an [AnimalCenter]: the class has no such
    attribute.  The relationship is a comment in models.py
    ([# animals = db.relationship("Animal", backref="animals")]) and
    [Animal] declares no backref. *)
Definition relationship_animals (record : animal_center.row)
    : outcome (list animal.row) :=
  Raise AttributeError.

(** The table with the row of key [animal.id a] replaced by [a']. *)
Definition replace_row (a a' : animal.row) (l : list animal.row)
    : list animal.row :=
  (λ b, if decide (animal.id b = animal.id a) then a' else b) <$> l.

(** ** The database *)

(** The three tables the operations below read and write, and a count of
    the statements executed so far.  (Table [access_request] is written by
    [create_access_request] only and never read; it is left out.) *)
Record DB := mkDB {
  tbl_animal_center : list animal_center.row;
  tbl_animal : list animal.row;
  tbl_species : list species.row;
  clock : nat
}.

Definition tick (db : DB) : DB :=
  mkDB (tbl_animal_center db) (tbl_animal db) (tbl_species db) (S (clock db)).

Definition with_animals (l : list animal.row) (db : DB) : DB :=
  mkDB (tbl_animal_center db) l (tbl_species db) (S (clock db)).

(** What the code relies on and does not define. *)
Class Backend := {
  (** No query of the code has an ORDER BY: the engine returns the rows of
      a result in an order of its choice, which may differ from one
      statement to the next. *)
  row_order : ∀ A : Type, nat → list A → list A;
  row_order_perm : ∀ A n (l : list A), row_order A n l ≡ₚ l;
  (** Constraints the engine checks when rows are written, beyond the
      column types and the primary key (foreign keys, length limits:
      these depend on the engine and its configuration). *)
  enforced : list animal_center.row → list animal.row → list species.row → bool;
  (** [str(x)] of a float, and the engine reading a quoted literal into a
      Float column. *)
  float_str : spec_float → string;
  real_literal : string → option spec_float;
  (** [werkzeug.security.check_password_hash(pwhash, password)] on a
      string hash. *)
  check_password_hash : string → string → bool;
  (** The code builds its SQL by pasting values into text.  When a
      pasted value closes the literal it was put in, or is no literal
      and no column, the text is not the statement the code means: the
      engine executes whatever it says.  Nothing is assumed about the
      result or about what it does to the tables. *)
  other_statement : string → DB → outcome (list Row) * DB
}.

(** State and exceptions: an operation takes the database and returns an
    outcome and the database after it. *)
Definition M (A : Type) : Type := DB → outcome A * DB.

#[global] Instance M_ret : MRet M := λ A a db, (Return a, db).
#[global] Instance M_bind : MBind M := λ A B f m db,
  match m db with
  | (Return a, db') => f a db'
  | (Raise e, db') => (Raise e, db')
  end.

#[global] Instance M_fmap : FMap M := λ A B f m db,
  match m db with
  | (o, db') => (f <$> o, db')
  end.

Definition raise {A} (e : exn) : M A := λ db, (Raise e, db).
Definition lift {A} (o : outcome A) : M A := λ db, (o, db).

(** ** Python helpers *)

(** [record[i]] on a result row; [record] may be [None]. *)
Definition getitem (record : option Row) (i : nat) : outcome value :=
  match record with
  | None => Raise TypeError
  | Some r => match r !! i with
              | Some (_, v) => Return v
              | None => Raise IndexError
              end
  end.

(** [record.name] on a result row; [record] may be [None]. *)
Definition getattr (record : option Row) (name : string) : outcome value :=
  match record with
  | None => Raise AttributeError
  | Some r => match list_find (λ kv, kv.1 = name) r with
              | Some (_, (_, v)) => Return v
              | None => Raise AttributeError
              end
  end.

(** [if record] on a result row: [None] and a row of no columns are
    false. *)
Definition truthy (record : option Row) : bool :=
  match record with
  | Some (_ :: _) => true
  | _ => false
  end.

(** [data.update(other)]: the keys of [other] win. *)
Definition update (data other : dict) : dict := other ∪ data.

(** [str(x)] of an int and the engine reading an integer literal. *)
Definition int_str (n : Z) : string := NilZero.string_of_int (Z.to_int n).
Definition int_literal (text : string) : option Z :=
  Z.of_int <$> NilZero.int_of_string text.

(** A character that ends a quoted SQL literal. *)
Definition has_quote (text : string) : bool :=
  bool_decide (Ascii.ascii_of_nat 39 ∈ String.list_ascii_of_string text).

(** Grouping as GROUP BY does: one group per distinct key. *)
Definition group_by {A K} `{EqDecision K} (key : A → K) (l : list A)
    : list (K * list A) :=
  (λ k, (k, filter (λ x, key x = k) l)) <$> remove_dups (key <$> l).

Section backend.
Context `{Backend}.

(** [str(x)], as ['{}'.format(x)] uses it. *)
Definition str (v : value) : string :=
  match v with
  | VNone => "None"
  | VInt n => int_str n
  | VFloat f => float_str f
  | VStr s => s
  end.

(** [werkzeug.security.check_password_hash]: it starts by
    [pwhash.count("$")], which only a string has. *)
Definition werkzeug_check (pwhash : value) (password : string) : outcome bool :=
  match pwhash with
  | VStr h => Return (check_password_hash h password)
  | _ => Raise AttributeError
  end.

(** *** The engine *)

(** A query: the engine computes the rows and hands them over in the
    order it chooses for this statement. *)
Definition execute_query {A} (rows : DB → list A) : M (list A) :=
  λ db, (Return (row_order A (clock db) (rows db)), tick db).

(** [db.engine.execute(text)] for a text that is not a statement the
    code means: see [other_statement]. *)
Definition execute_text (text : string) : M (list Row) := other_statement text.

(** [SELECT * FROM tbl WHERE P], [Model.query.filter_by(P).all()]. *)
Definition select {A} (tbl : DB → list A) (P : A → Prop)
    `{∀ x, Decision (P x)} : M (list A) :=
  execute_query (λ db, filter P (tbl db)).

(** [.first()] of a result. *)
Definition first {A} (m : M (list A)) : M (option A) :=
  rows ← m; mret (head rows).

(** [COUNT(animal.name)] over the left outer join of a group of species
    rows with [animal] on [species.id = animal.species_id]: the joined
    pairs whose animal name is not NULL (the NULL row that an unmatched
    species contributes is not counted). *)
Definition count_animal_names (animals : list animal.row)
    (group : list species.row) : Z :=
  Z.of_nat (length (filter
    (λ sa : species.row * animal.row,
       animal.species_id sa.2 = Some (species.id sa.1)
       ∧ is_Some (animal.name sa.2))
    (s ← group; a ← animals; [(s, a)]))).

(** [Model.query.get(id)]: the row with that primary key, or [None]. *)
Definition query_get {A} (tbl : DB → list A) (pk : A → Z) (id : Z)
    : M (option A) :=
  first (select tbl (λ r, pk r = id)).

(** [db.session.delete(x); db.session.commit()] for an [Animal]: the
    session refuses what is not a mapped instance, [None] included. *)
Definition session_delete (x : option animal.row) : M unit :=
  match x with
  | None => raise UnmappedInstanceError
  | Some a => λ db,
    (Return (),
     with_animals (filter (λ b, animal.id b ≠ animal.id a) (tbl_animal db)) db)
  end.

(** Binding a Python value to a column when a row is written.  The
    column types are enforced (as by PostgreSQL; the type affinity of
    SQLite is not modelled). *)
Definition as_int (v : value) : option (option Z) :=
  match v with VNone => Some None | VInt n => Some (Some n) | _ => None end.
Definition as_str (v : value) : option (option string) :=
  match v with VNone => Some None | VStr s => Some (Some s) | _ => None end.
Definition as_float (v : value) : option (option spec_float) :=
  match v with
  | VNone => Some None
  | VFloat f => Some (Some f)
  | VInt n => Some <$> real_literal (int_str n)
  | VStr _ => None
  end.

(** The row that the column attributes of an [Animal] instance flush
    to; the primary key is not NULL. *)
Definition animal_of_attrs (d : dict) : option animal.row :=
  id ← mjoin (d !! "id" ≫= as_int);
  center_id ← d !! "center_id" ≫= as_int;
  name ← d !! "name" ≫= as_str;
  description ← d !! "description" ≫= as_str;
  age ← d !! "age" ≫= as_int;
  species_id ← d !! "species_id" ≫= as_int;
  price ← d !! "price" ≫= as_float;
  Some (animal.mk id center_id name description age species_id price).

(** Writing the row [a'] in place of the stored row [a] (an UPDATE of
    the row whose key is [animal.id a]).  Nothing is sent when nothing
    changed; a key already taken, or a constraint of the engine, stops
    the write. *)
Definition write_animal (a a' : animal.row) : M unit := λ db,
  let others := filter (λ b, animal.id b ≠ animal.id a) (tbl_animal db) in
  let rows := replace_row a a' (tbl_animal db) in
  if decide (a' = a) then (Return (), db)
  else if decide (animal.id a' ∈ animal.id <$> others)
  then (Raise SQLAlchemyError, db)
  else if enforced (tbl_animal_center db) rows (tbl_species db)
  then (Return (), with_animals rows db)
  else (Raise SQLAlchemyError, db).
End backend.


(** ** [app/dao.py]: data access through SQL text *)

Module AnimalsDAO.
Section backend.
Context `{Backend}.

Definition deserialize (record : option Row) (long : bool) : outcome dict :=
  id ← getitem record 0;
  name ← getitem record 2;
  let data : dict := <["id" := id]> (<["name" := name]> ∅) in
  if long then
    center_id ← getitem record 1;
    description ← getitem record 3;
    age ← getitem record 4;
    species_id ← getitem record 5;
    price ← getitem record 6;
    Return (update data
      (<["center_id" := center_id]> (<["description" := description]>
       (<["age" := age]> (<["species_id" := species_id]>
       (<["price" := price]> ∅))))))
  else Return data.

(** ["SELECT * FROM animal;"] *)
Definition get_animals : M (list dict) :=
  records ← select tbl_animal (λ _, True);
  lift (mapM (λ record, deserialize (Some (animal.to_row record)) false) records).

(** ["SELECT * FROM animal WHERE id={}".format(animal_id)] *)
Definition get_animal (animal_id : Z) : M (option dict) :=
  record ← first (select tbl_animal (λ a, animal.id a = animal_id));
  let record := animal.to_row <$> record in
  if truthy record then Some <$> lift (deserialize record true)
  else mret None.

(** ["DELETE FROM animal WHERE id={}".format(animal_id)] *)
Definition delete_animal (animal_id : Z) : M unit := λ db,
  (Return (),
   with_animals (filter (λ a, animal.id a ≠ animal_id) (tbl_animal db)) db).

(** The text of the update statement:
    ["UPDATE animal SET {} WHERE id={}".format(update_string, animal_id)]
    with [update_string] the [","]-join of ["{}='{}'".format(key, value)]. *)
Definition update_sql (assignments : list (string * string))
    (animal_id : string) : string :=
  "UPDATE animal SET "
  ++ String.concat "," ((λ kv, kv.1 ++ "='" ++ kv.2 ++ "'") <$> assignments)
  ++ " WHERE id=" ++ animal_id.

(** The columns of [animal]. *)
Definition column (key : string) : bool :=
  bool_decide (key ∈ ["id"; "center_id"; "name"; "description"; "age";
                      "species_id"; "price"]).

(** The value that the quoted literal [text] takes in column [col] of
    table [animal]; [None] when the column does not exist or the text
    does not read as the column's type. *)
Definition literal_value (col text : string) : option value :=
  if bool_decide (col ∈ ["id"; "center_id"; "age"; "species_id"])
  then VInt <$> int_literal text
  else if bool_decide (col ∈ ["name"; "description"])
  then Some (VStr text)
  else if bool_decide (col = "price")
  then VFloat <$> real_literal text
  else None.

(** The assignments of a SET clause applied, left to right, to the
    columns of a row. *)
Definition assign (assignments : list (string * string)) (d : dict)
    : option dict :=
  foldl (λ acc kv, d ← acc; v ← literal_value kv.1 kv.2; Some (<[kv.1 := v]> d))
        (Some d) assignments.

(** The engine executing [update_sql assignments animal_id].  A SET
    clause without assignments is a syntax error.  The text is the
    statement the code means when every key is a column, no value has a
    quote in it and an integer follows [id=]: the row of that key, if
    there is one, gets the literals, each read as the type of its
    column.  Any other text (a quote inside a value is the simplest) is
    a different statement, which the engine executes as it stands: see
    [other_statement]. *)
Definition execute_update (assignments : list (string * string))
    (animal_id : string) : M unit := λ db,
  match assignments, int_literal animal_id with
  | [], _ => (Raise SQLAlchemyError, db)
  | _ :: _, Some n =>
    if existsb (λ kv, has_quote kv.2 || negb (column kv.1)) assignments
    then ((λ _, ()) <$> execute_text (update_sql assignments animal_id)) db
    else
      match list_find (λ a, animal.id a = n) (tbl_animal db) with
      | None =>
        match assign assignments ∅ with
        | Some _ => (Return (), tick db)
        | None => (Raise SQLAlchemyError, db)
        end
      | Some (_, a) =>
        match assign assignments (animal.attrs a) ≫= animal_of_attrs with
        | Some a' => write_animal a a' db
        | None => (Raise SQLAlchemyError, db)
        end
      end
  | _ :: _, None =>
    ((λ _, ()) <$> execute_text (update_sql assignments animal_id)) db
  end.

(** [animal] is the mapping with the key ['id']; [data_upd] and
    [animal_id] are accepted and not used. *)
Definition update_animal (animal data_upd : option dict)
    (animal_id : option Z) : M unit :=
  match animal with                       (* copy(None) is None *)
  | None => raise AttributeError          (* None.pop *)
  | Some animal =>
    match animal !! "id" with             (* animal.pop('id') *)
    | None => raise KeyError
    | Some animal_id =>
      let animal := delete "id" animal in
      execute_update ((λ kv, (kv.1, str kv.2)) <$> map_to_list animal)
                     (str animal_id)
    end
  end.

End backend.
End AnimalsDAO.

Module AnimalCentersDAO.
Section backend.
Context `{Backend}.

Definition deserialize (record : option Row) (long : bool) : outcome dict :=
  id ← getattr record "id";
  login ← getattr record "login";
  let data : dict := <["id" := id]> (<["login" := login]> ∅) in
  if long then
    address ← getattr record "address";
    Return (update data (<["address" := address]> ∅))
  else Return data.

(** ["SELECT * FROM animal_center;"] *)
Definition get_centers : M (list dict) :=
  records ← select tbl_animal_center (λ _, True);
  lift (mapM (λ record, deserialize (Some (animal_center.to_row record)) false)
             records).

(** ["SELECT * FROM animal_center WHERE id={};".format(id)], then
    ["SELECT * FROM animal WHERE center_id={};".format(id)]; both are
    executed before [record] is tested. *)
Definition get_center_inform (id : Z) : M (option (dict * list dict)) :=
  record ← first (select tbl_animal_center (λ c, animal_center.id c = id));
  animals ← select tbl_animal (λ a, animal.center_id a = Some id);
  let record := animal_center.to_row <$> record in
  if truthy record then
    center ← lift (deserialize record true);
    animals ← lift (mapM (λ animal,
                 AnimalsDAO.deserialize (Some (animal.to_row animal)) false)
               animals);
    mret (Some (center, animals))
  else mret None.

(** ["SELECT * FROM animal_center WHERE login='{}';".format(user_login)] *)
Definition login_sql (user_login : string) : string :=
  "SELECT * FROM animal_center WHERE login='" ++ user_login ++ "';".

(** The login is pasted between the quotes as it is: with a quote inside
    it the text is a different statement (see [other_statement]), whose
    first row, if it has one, is deserialized like a center. *)
Definition get_center_by_login (user_login : string) : M (option dict) :=
  if has_quote user_login then
    record ← first (execute_text (login_sql user_login));
    if truthy record then Some <$> lift (deserialize record true)
    else mret None
  else
    record ← first (select tbl_animal_center
                      (λ c, animal_center.login c = Some user_login));
    let record := animal_center.to_row <$> record in
    if truthy record then Some <$> lift (deserialize record true)
    else mret None.

(** ["SELECT password_hash FROM animal_center WHERE id ={};".format(user_id)]:
    a row of the one column [password_hash]. *)
Definition check_password (password : string) (user_id : Z) : M bool :=
  record ← first (select tbl_animal_center (λ c, animal_center.id c = user_id));
  let record : option Row :=
    (λ c, [("password_hash", py_str (animal_center.password_hash c))])
      <$> record in
  lift (password_hash ← getattr record "password_hash";
        werkzeug_check password_hash password).

End backend.
End AnimalCentersDAO.

Module SpeciesDAO.
Section backend.
Context `{Backend}.

Definition deserialize (record : option Row) (long : bool) : outcome dict :=
  species_name ← getitem record 0;
  count_of_animals ← getitem record 1;
  let data : dict :=
    <["species_name" := species_name]>
      (<["count_of_animals" := count_of_animals]> ∅) in
  if long then
    id ← getitem record 0;
    name ← getitem record 1;
    description ← getitem record 2;
    price ← getitem record 3;
    Return (<["id" := id]> (<["name" := name]>
            (<["description" := description]> (<["price" := price]> ∅))))
  else Return data.

(** ["SELECT species.name, count(animal.name) FROM species
      LEFT OUTER JOIN animal ON species.id = animal.species_id
      GROUP BY species.name"]: one row per distinct species name. *)
Definition get_species : M (list dict) :=
  records ← execute_query (λ db,
    (λ g : option string * list species.row,
       [("name", py_str g.1);
        ("count_1", VInt (count_animal_names (tbl_animal db) g.2))])
    <$> group_by species.name (tbl_species db));
  lift (mapM (λ record, deserialize (Some record) false) records).

(** ["SELECT * FROM species WHERE id = {};".format(id)], then
    ["SELECT * FROM animal WHERE species_id = {};".format(id)]. *)
Definition get_species_inform (id : Z) : M (option (dict * list dict)) :=
  record ← first (select tbl_species (λ s, species.id s = id));
  animals ← select tbl_animal (λ a, animal.species_id a = Some id);
  let record := species.to_row <$> record in
  if truthy record then
    sp ← lift (deserialize record true);
    animals ← lift (mapM (λ animal,
                 AnimalsDAO.deserialize (Some (animal.to_row animal)) false)
               animals);
    mret (Some (sp, animals))
  else mret None.

End backend.
End SpeciesDAO.


(** ** [app/models.py]: the methods of the mapped classes *)

Module AnimalCenter.
Section backend.
Context `{Backend}.

(** [user_id] is accepted and not used. *)
Definition check_password (self : animal_center.row) (password : string)
    (user_id : option Z) : outcome bool :=
  werkzeug_check (py_str (animal_center.password_hash self)) password.

(** [record] is accepted and not used. *)
Definition deserialize (self : animal_center.row)
    (record : option animal_center.row) (long : bool) : outcome dict :=
  let data : dict :=
    <["id" := VInt (animal_center.id self)]>
      (<["login" := py_str (animal_center.login self)]> ∅) in
  if long then
    Return (update data (<["address" := py_str (animal_center.address self)]> ∅))
  else Return data.

(** [AnimalCenter.deserialize(record, long=False)]: called on the class,
    so [record] is [self]. *)
Definition get_centers : M (list dict) :=
  records ← select tbl_animal_center (λ _, True);
  lift (mapM (λ record, deserialize record None false) records).

Definition get_center_inform (id : Z) : M (option dict) :=
  record ← query_get tbl_animal_center animal_center.id id;
  match record with
  | Some record => Some <$> lift (deserialize record None true)
  | None => mret None
  end.

Definition get_center_by_login (user_login : string)
    : M (option animal_center.row) :=
  first (select tbl_animal_center (λ c, animal_center.login c = Some user_login)).

End backend.
End AnimalCenter.

Module Animal.
Section backend.
Context `{Backend}.

(** [record] is accepted and not used. *)
Definition deserialize (self : animal.row) (record : option animal.row)
    (long : bool) : outcome dict :=
  let data : dict :=
    <["id" := VInt (animal.id self)]>
      (<["name" := py_str (animal.name self)]> ∅) in
  if long then
    Return (update data
      (<["center_id" := py_int (animal.center_id self)]>
       (<["description" := py_str (animal.description self)]>
       (<["age" := py_int (animal.age self)]>
       (<["species_id" := py_int (animal.species_id self)]>
       (<["price" := py_float (animal.price self)]> ∅))))))
  else Return data.

Definition get_animals : M (list dict) :=
  animals ← select tbl_animal (λ _, True);
  lift (mapM (λ animal, deserialize animal None false) animals).

(** [animal.deserialize(long=True)] with no test of [animal]. *)
Definition get_animal (animal_id : Z) : M (option dict) :=
  animal ← query_get tbl_animal animal.id animal_id;
  match animal with
  | Some animal => Some <$> lift (deserialize animal None true)
  | None => raise AttributeError                (* None.deserialize *)
  end.

Definition delete_animal (animal_id : Z) : M unit :=
  animal ← query_get tbl_animal animal.id animal_id;
  session_delete animal.

(** [for key, value in data_upd.items(): setattr(animal, key, value)],
    then the commit flushes the instance.  A key that is no column stays
    an attribute of the Python object and is not written. *)
Definition update_animal (animal data_upd : option dict) (animal_id : Z)
    : M unit :=
  animal ← query_get tbl_animal animal.id animal_id;
  match data_upd, animal with
  | None, _ => raise AttributeError             (* None.items() *)
  | Some data_upd, None =>
    if decide (data_upd = ∅) then mret ()
    else raise AttributeError                   (* setattr(None, ...) *)
  | Some data_upd, Some a =>
    let obj := map_fold (λ key value obj, <[key := value]> obj)
                        (animal.attrs a) data_upd in
    match animal_of_attrs obj with
    | Some a' => write_animal a a'
    | None => raise SQLAlchemyError
    end
  end.

End backend.
End Animal.

Module Species.
Section backend.
Context `{Backend}.

(** [data] is bound under [if long] only: without the flag,
    [return data] reads a local that was never assigned. *)
Definition deserialize (self : species.row) (record : option species.row)
    (long : bool) : outcome dict :=
  if long then
    Return (<["id" := VInt (species.id self)]>
            (<["name" := py_str (species.name self)]>
            (<["description" := py_str (species.description self)]>
            (<["price" := py_float (species.price self)]> ∅))))
  else Raise UnboundLocalError.

(** [db.session.query(Species.name, db.func.count(Animal.name))
       .join(Animal, Species.id == Animal.species_id, isouter=True)
       .group_by(Species.id).all()]: one row per species identifier. *)
Definition get_species : M (list dict) :=
  result ← execute_query (λ db,
    (λ g : Z * list species.row,
       (py_str (head g.2 ≫= species.name),
        VInt (count_animal_names (tbl_animal db) g.2)))
    <$> group_by species.id (tbl_species db));
  mret ((λ nc : value * value,
           <["species_name" := nc.1]> (<["count_of_animals" := nc.2]> ∅))
        <$> result).

(** The animals are serialized in the long form here. *)
Definition get_species_inform (id : Z) : M (option (dict * list dict)) :=
  sp ← query_get tbl_species species.id id;
  animals ← select tbl_animal (λ a, animal.species_id a = Some id);
  match sp with
  | Some sp =>
    sp ← lift (deserialize sp None true);
    animals ← lift (mapM (λ animal, Animal.deserialize animal None true) animals);
    mret (Some (sp, animals))
  | None => mret None
  end.

End backend.
End Species.


(** ** [app/dao_models.py]: data access through the ORM *)

Module AnimalORM.
Section backend.
Context `{Backend}.

Definition deserialize (record : option animal.row) (long : bool)
    : outcome dict :=
  match record with
  | None => Raise AttributeError                (* None.id *)
  | Some record =>
    let data : dict :=
      <["id" := VInt (animal.id record)]>
        (<["name" := py_str (animal.name record)]> ∅) in
    if long then
      Return (update data
        (<["center_id" := py_int (animal.center_id record)]>
         (<["description" := py_str (animal.description record)]>
         (<["age" := py_int (animal.age record)]>
         (<["species_id" := py_int (animal.species_id record)]>
         (<["price" := py_float (animal.price record)]> ∅))))))
    else Return data
  end.

Definition get_animals : M (list dict) :=
  animals ← select tbl_animal (λ _, True);
  lift (mapM (λ animal, deserialize (Some animal) false) animals).

Definition get_animal (animal_id : Z) : M (option dict) :=
  animal ← query_get tbl_animal animal.id animal_id;
  match animal with
  | Some animal => Some <$> lift (deserialize (Some animal) true)
  | None => mret None
  end.

Definition delete_animal (animal_id : Z) : M unit :=
  animal ← query_get tbl_animal animal.id animal_id;
  session_delete animal.

(** The same loop of [setattr] as [Animal.update_animal]. *)
Definition update_animal (animal data_upd : option dict) (animal_id : Z)
    : M unit :=
  animal ← query_get tbl_animal animal.id animal_id;
  match data_upd, animal with
  | None, _ => raise AttributeError             (* None.items() *)
  | Some data_upd, None =>
    if decide (data_upd = ∅) then mret ()
    else raise AttributeError                   (* setattr(None, ...) *)
  | Some data_upd, Some a =>
    let obj := map_fold (λ key value obj, <[key := value]> obj)
                        (animal.attrs a) data_upd in
    match animal_of_attrs obj with
    | Some a' => write_animal a a'
    | None => raise SQLAlchemyError
    end
  end.

End backend.
End AnimalORM.

Module AnimalCenterORM.
Section backend.
Context `{Backend}.

Definition deserialize (record : option animal_center.row) (long : bool)
    : outcome dict :=
  match record with
  | None => Raise AttributeError                (* None.id *)
  | Some record =>
    let data : dict :=
      <["id" := VInt (animal_center.id record)]>
        (<["login" := py_str (animal_center.login record)]> ∅) in
    if long then
      Return (update data
        (<["address" := py_str (animal_center.address record)]> ∅))
    else Return data
  end.

Definition check_password (password : string) (user_id : Z) : M bool :=
  record ← query_get tbl_animal_center animal_center.id user_id;
  match record with
  | None => raise AttributeError                (* None.password_hash *)
  | Some record =>
    lift (werkzeug_check (py_str (animal_center.password_hash record)) password)
  end.

Definition get_centers : M (list dict) :=
  records ← select tbl_animal_center (λ _, True);
  lift (mapM (λ record, deserialize (Some record) false) records).

(** The pair is built left to right: the center mapping first, then the
    list over [record.animals]. *)
Definition get_center_inform (id : Z) : M (option (dict * list dict)) :=
  record ← query_get tbl_animal_center animal_center.id id;
  match record with
  | Some record =>
    center ← lift (deserialize (Some record) true);
    animals ← lift (relationship_animals record);
    animals ← lift (mapM (λ animal, AnimalORM.deserialize (Some animal) false)
                         animals);
    mret (Some (center, animals))
  | None => mret None
  end.

(** The instance itself is returned, not a mapping. *)
Definition get_center_by_login (user_login : string)
    : M (option animal_center.row) :=
  first (select tbl_animal_center (λ c, animal_center.login c = Some user_login)).

End backend.
End AnimalCenterORM.

Module SpeciesORM.
Section backend.
Context `{Backend}.

(** As [Species.deserialize]: [data] is bound under [if long] only. *)
Definition deserialize (record : option species.row) (long : bool)
    : outcome dict :=
  if long then
    match record with
    | None => Raise AttributeError              (* None.id *)
    | Some record =>
      Return (<["id" := VInt (species.id record)]>
              (<["name" := py_str (species.name record)]>
              (<["description" := py_str (species.description record)]>
              (<["price" := py_float (species.price record)]> ∅))))
    end
  else Raise UnboundLocalError.

(** The query of [Species.get_species]: grouped by [Species.id]. *)
Definition get_species : M (list dict) :=
  result ← execute_query (λ db,
    (λ g : Z * list species.row,
       (py_str (head g.2 ≫= species.name),
        VInt (count_animal_names (tbl_animal db) g.2)))
    <$> group_by species.id (tbl_species db));
  mret ((λ nc : value * value,
           <["species_name" := nc.1]> (<["count_of_animals" := nc.2]> ∅))
        <$> result).

Definition get_species_inform (id : Z) : M (option (dict * list dict)) :=
  sp ← query_get tbl_species species.id id;
  animals ← select tbl_animal (λ a, animal.species_id a = Some id);
  match sp with
  | Some sp =>
    sp ← lift (deserialize (Some sp) true);
    animals ← lift (mapM (λ animal, AnimalORM.deserialize (Some animal) false)
                         animals);
    mret (Some (sp, animals))
  | None => mret None
  end.

End backend.
End SpeciesORM.

(** ** A concrete backend and a small database *)

(** An engine that returns rows in table order on even statements and in
    reverse on odd ones, enforces nothing more, compares a password with
    the stored text, and refuses every statement that is not one the
    code means. *)
#[local] Program Instance test_backend : Backend := {|
  row_order A n l := if Nat.even n then l else reverse l;
  enforced _ _ _ := true;
  float_str _ := "0.0";
  real_literal _ := None;
  check_password_hash h p := bool_decide (h = p);
  other_statement _ db := (Raise SQLAlchemyError, db)
|}.
Next Obligation. intros A n l. simpl. destruct (Nat.even n); [done | apply reverse_Permutation]. Qed.

Definition north : animal_center.row :=
  animal_center.mk 10 (Some "north") (Some "pw") (Some "1 Main St").
Definition south : animal_center.row :=
  animal_center.mk 11 (Some "south") None None.

Definition rex : animal.row :=
  animal.mk 1 (Some 10) (Some "Rex") (Some "friendly dog") (Some 3) (Some 100) None.
Definition tom : animal.row :=
  animal.mk 2 (Some 10) (Some "Tom") None (Some 5) (Some 101) None.
Definition stray : animal.row :=
  animal.mk 3 (Some 11) None None (Some 5) (Some 100) None.

Definition dog : species.row := species.mk 100 (Some "dog") None None.
Definition cat : species.row := species.mk 101 (Some "cat") None None.
Definition dog' : species.row := species.mk 102 (Some "dog") None None.

Definition shop : DB := mkDB [north; south] [rex; tom; stray] [dog; cat; dog'] 0.

(** ** Short forms, used to state the results *)

(** The short form of an animal: the keys [id] and [name]. *)
Definition animal_short (a : animal.row) : dict :=
  <["id" := VInt (animal.id a)]> (<["name" := py_str (animal.name a)]> ∅).

(** The short and the long form of a center. *)
Definition center_short (c : animal_center.row) : dict :=
  <["id" := VInt (animal_center.id c)]>
    (<["login" := py_str (animal_center.login c)]> ∅).

Definition center_long (c : animal_center.row) : dict :=
  <["address" := py_str (animal_center.address c)]> (center_short c).

(** The rows of an unfiltered select of [animal], in the order the engine
    chose. *)
Definition scan `{Backend} (db : DB) : list animal.row :=
  row_order _ (clock db) (filter (λ _, True) (tbl_animal db)).

(** Two listings in a row, with nothing in between. *)
Definition twice {A} (m : M A) : M (A * A) :=
  x ← m; y ← m; mret (x, y).

(** Two listings of animals in a row give the same set of short
    mappings, those of the stored rows, and leave the table as it was. *)
Definition stable_listing (get_animals : M (list dict)) (db : DB) : Prop :=
  ∃ l1 l2 db',
    twice get_animals db = (Return (l1, l2), db')
    ∧ tbl_animal db' = tbl_animal db
    ∧ (∀ m, m ∈ l1 ↔ m ∈ l2)
    ∧ (∀ m, m ∈ l1 ↔ ∃ a, a ∈ tbl_animal db ∧ m = animal_short a).

(** A row with another description. *)
Definition with_description (a : animal.row) (d : option string) : animal.row :=
  animal.mk (animal.id a) (animal.center_id a) (animal.name a) d
            (animal.age a) (animal.species_id a) (animal.price a).

(** [data] is the long form of a stored animal with the identifier
    [animal_id]: the seven columns of one such row, under their names. *)
Definition long_animal (db : DB) (animal_id : Z) (data : dict) : Prop :=
  (∃ a, a ∈ tbl_animal db ∧ animal.id a = animal_id ∧ data = animal.attrs a)
  ∧ dom data = list_to_set ["id"; "center_id"; "name"; "description"; "age";
                            "species_id"; "price"]
  ∧ data !! "id" = Some (VInt animal_id).

(** ** More forms, used to state what the other operations return *)

(** The long form of a species. *)
Definition species_long (s : species.row) : dict :=
  <["id" := VInt (species.id s)]>
    (<["name" := py_str (species.name s)]>
    (<["description" := py_str (species.description s)]>
    (<["price" := py_float (species.price s)]> ∅))).

(** The animals of a center and of a species, in table order. *)
Definition animals_of_center (db : DB) (id : Z) : list animal.row :=
  filter (λ a, animal.center_id a = Some id) (tbl_animal db).

Definition animals_of_species (db : DB) (id : Z) : list animal.row :=
  filter (λ a, animal.species_id a = Some id) (tbl_animal db).

(** The row of the species listing for [s]: its name and the number of
    its animals that have a name. *)
Definition species_entry (db : DB) (s : species.row) : dict :=
  <["species_name" := py_str (species.name s)]>
    (<["count_of_animals" :=
         VInt (Z.of_nat (length (filter (λ a, is_Some (animal.name a))
                                        (animals_of_species db (species.id s)))))]>
     ∅).

(** The row of the species listing for the name [n] when the listing is
    grouped by name: the name, and the animals with a name of all the
    species called [n] together. *)
Definition name_entry (db : DB) (n : option string) : dict :=
  <["species_name" := py_str n]>
    (<["count_of_animals" :=
         VInt (Z.of_nat (sum_list_with
           (λ s, length (filter (λ a, is_Some (animal.name a))
                                (animals_of_species db (species.id s))))
           (filter (λ s, species.name s = n) (tbl_species db))))]>
     ∅).

(** The three tables of [db'] are those of [db]. *)
Definition same_tables (db db' : DB) : Prop :=
  tbl_animal_center db' = tbl_animal_center db
  ∧ tbl_animal db' = tbl_animal db
  ∧ tbl_species db' = tbl_species db.

(** An operation that, returning or raising, leaves the three tables as
    they were. *)
Definition read_only {A} (m : M A) : Prop :=
  ∀ db, same_tables db (m db).2.

(** [db'] is [db] without the animals of identifier [animal_id]; the
    other tables are the same. *)
Definition deleted (db : DB) (animal_id : Z) (db' : DB) : Prop :=
  tbl_animal db' = filter (λ a, animal.id a ≠ animal_id) (tbl_animal db)
  ∧ tbl_animal_center db' = tbl_animal_center db
  ∧ tbl_species db' = tbl_species db.

(** The columns of [animal]. *)
Definition animal_columns : list string :=
  ["id"; "center_id"; "name"; "description"; "age"; "species_id"; "price"].

(** [a'] is [a] with the columns named in [data_upd] set to the values
    given there, every other column (the key is one) as it was. *)
Definition updated (a : animal.row) (data_upd : dict) (a' : animal.row) : Prop :=
  animal.id a' = animal.id a
  ∧ Forall (λ k, animal.attrs a' !! k = (data_upd ∪ animal.attrs a) !! k)
           animal_columns.

(** A value that the update statement of [AnimalsDAO] carries intact
    into column [key]: an int for an integer column, a string without a
    quote for a string column. *)
Definition sql_safe (key : string) (v : value) : Prop :=
  match v with
  | VInt _ => key ∈ ["center_id"; "age"; "species_id"]
  | VStr s => key ∈ ["name"; "description"] ∧ has_quote s = false
  | _ => False
  end.

#[global] Instance sql_safe_dec (key : string) (v : value) :
  Decision (sql_safe key v).
Proof. destruct v; simpl; apply _. Defined.

(** A value of the type of the column [key] of [animal], the key column
    apart: what the loop of [setattr] hands to the engine for a field. *)
Definition typed (key : string) (v : value) : Prop :=
  match v with
  | VNone => key ∈ ["center_id"; "name"; "description"; "age"; "species_id";
                    "price"]
  | VInt _ => key ∈ ["center_id"; "age"; "species_id"]
  | VFloat _ => key = "price"
  | VStr _ => key ∈ ["name"; "description"]
  end.

#[global] Instance typed_dec (key : string) (v : value) : Decision (typed key v).
Proof. destruct v; simpl; apply _. Defined.

(** The field mapping of [update_animal] in the ORM data access and in
    the mapped class holds typed values ([None] for the mapping is the
    call without it). *)
Definition typed_update (data_upd : option dict) : Prop :=
  from_option (map_Forall typed) True data_upd.

#[global] Instance typed_update_dec (data_upd : option dict) :
  Decision (typed_update data_upd).
Proof. destruct data_upd; simpl; apply _. Defined.

(** The mapping of [AnimalsDAO.update_animal] makes the statement the
    code means: the key, when present, is an int, and the fields are
    carried intact. *)
Definition sql_update (animal : option dict) : Prop :=
  match animal with
  | None => True
  | Some animal =>
    match animal !! "id" with
    | Some (VInt _) | None => True
    | Some _ => False
    end
    ∧ map_Forall sql_safe (delete "id" animal)
  end.

#[global] Instance sql_update_dec (animal : option dict) :
  Decision (sql_update animal).
Proof.
  destruct animal as [animal|]; simpl; [|apply _].
  destruct (animal !! "id") as [[]|]; apply _.
Defined.

(** The primary key of [animal] holds in [db]. *)
Definition animal_keys_unique (db : DB) : Prop :=
  NoDup (animal.id <$> tbl_animal db).

(** What every operation on animals keeps: the centers, the species, and
    the primary key of [animal]. *)
Definition animal_step (db db' : DB) : Prop :=
  tbl_animal_center db' = tbl_animal_center db
  ∧ tbl_species db' = tbl_species db
  ∧ (animal_keys_unique db → animal_keys_unique db').

(** ** Inserting: [add_animal] and [add_species]

    These are the remaining methods of the classes above; their modules
    are closed, so each is named after its class. *)

(** The identifier that the engine gives to an inserted row (an
    auto-assigned integer key): above every identifier of the table. *)
Class Sequences := {
  next_id : nat → list Z → Z;
  next_id_above : ∀ n (l : list Z) i, i ∈ l → (i < next_id n l)%Z
}.

(** [data[key]] *)
Definition getkey (data : dict) (key : string) : outcome value :=
  match data !! key with
  | Some v => Return v
  | None => Raise KeyError
  end.

Definition with_species (l : list species.row) (db : DB) : DB :=
  mkDB (tbl_animal_center db) (tbl_animal db) l (S (clock db)).

Section inserting.
Context `{Backend} `{Sequences}.

(** The row that the column attributes of a [Species] instance flush
    to. *)
Definition species_of_attrs (d : dict) : option species.row :=
  id ← mjoin (d !! "id" ≫= as_int);
  name ← d !! "name" ≫= as_str;
  description ← d !! "description" ≫= as_str;
  price ← d !! "price" ≫= as_float;
  Some (species.mk id name description price).

(** An INSERT into [animal] of the columns in [obj]: the engine assigns
    the key, binds the values to the columns and checks its
    constraints.  The stored row is returned. *)
Definition insert_animal (obj : dict) : M animal.row := λ db,
  let id := next_id (clock db) (animal.id <$> tbl_animal db) in
  let obj := <["id" := VInt id]> obj in
  match animal_of_attrs obj with
  | Some a =>
    let rows := (tbl_animal db ++ [a])%list in
    if enforced (tbl_animal_center db) rows (tbl_species db)
    then (Return a, with_animals rows db)
    else (Raise SQLAlchemyError, db)
  | None => (Raise SQLAlchemyError, db)
  end.

Definition insert_species (obj : dict) : M species.row := λ db,
  let id := next_id (clock db) (species.id <$> tbl_species db) in
  let obj := <["id" := VInt id]> obj in
  match species_of_attrs obj with
  | Some s =>
    let rows := (tbl_species db ++ [s])%list in
    if enforced (tbl_animal_center db) (tbl_animal db) rows
    then (Return s, with_species rows db)
    else (Raise SQLAlchemyError, db)
  | None => (Raise SQLAlchemyError, db)
  end.

(** The value of a text pasted between quotes, and of a text pasted
    bare, in an INSERT: a quoted text without a quote in it is that
    string; a bare text that is an integer literal (a real literal for
    [price]) is that number. *)
Definition quoted_value (text : string) : option value :=
  if has_quote text then None else Some (VStr text).

Definition bare_int (text : string) : option value :=
  VInt <$> int_literal text.

Definition bare_real (text : string) : option value :=
  VFloat <$> real_literal text.

(** A bare text that keeps the statement the one the code means: a
    literal, or the word None, which is what [str(None)] is; the engine
    takes the word for a column name, finds no such column and refuses
    the statement. *)
Definition bare_text (literal : string → option value) (text : string) : bool :=
  bool_decide (is_Some (literal text) ∨ text = "None").

(** [AnimalORM.add_animal] (dao_models.py): the keyword arguments are
    evaluated in order, so the first missing key raises; after the
    commit the instance is read back for [deserialize]. *)
Definition AnimalORM_add_animal (data : dict) (userid : Z) : M dict :=
  name ← lift (getkey data "name");
  description ← lift (getkey data "description");
  price ← lift (getkey data "price");
  species_id ← lift (getkey data "species_id");
  age ← lift (getkey data "age");
  animal ← insert_animal
    (<["name" := name]> (<["center_id" := VInt userid]>
     (<["description" := description]> (<["price" := price]>
     (<["species_id" := species_id]> (<["age" := age]> ∅))))));
  lift (AnimalORM.deserialize (Some animal) false).

(** [Animal.add_animal] (models.py): the same, with
    [animal.deserialize(animal)]. *)
Definition Animal_add_animal (data : dict) (userid : Z) : M dict :=
  name ← lift (getkey data "name");
  description ← lift (getkey data "description");
  price ← lift (getkey data "price");
  species_id ← lift (getkey data "species_id");
  age ← lift (getkey data "age");
  animal ← insert_animal
    (<["name" := name]> (<["center_id" := VInt userid]>
     (<["description" := description]> (<["price" := price]>
     (<["species_id" := species_id]> (<["age" := age]> ∅))))));
  lift (Animal.deserialize animal (Some animal) false).

(** ["INSERT INTO animal (name, center_id, description, price,
      species_id, age) VALUES ('{}', {}, '{}', {}, {}, {});"
      .format(...)] *)
Definition insert_animal_sql (name center_id description price
    species_id age : string) : string :=
  "INSERT INTO animal (name, center_id, description, price, species_id, age) "
  ++ "VALUES ('" ++ name ++ "', " ++ center_id ++ ", '" ++ description
  ++ "', " ++ price ++ ", " ++ species_id ++ ", " ++ age ++ ");".

(** The statement the code means: the row of the six values is
    inserted; a bare None makes the engine refuse the statement. *)
Definition insert_animal_values (name center_id description price
    species_id age : string) : M unit := λ db,
  match quoted_value name, bare_int center_id, quoted_value description,
        bare_real price, bare_int species_id, bare_int age with
  | Some name, Some center_id, Some description,
    Some price, Some species_id, Some age =>
    match insert_animal
            (<["name" := name]> (<["center_id" := center_id]>
             (<["description" := description]> (<["price" := price]>
             (<["species_id" := species_id]> (<["age" := age]> ∅)))))) db with
    | (Return _, db') => (Return (), db')
    | (Raise e, db') => (Raise e, db')
    end
  | _, _, _, _, _, _ => (Raise SQLAlchemyError, db)
  end.

(** The engine executing the text.  It is the statement the code means
    when the two quoted texts have no quote in them and each bare text
    is a literal or the word None.  Any other text is a different
    statement, which the engine executes as it stands (see
    [other_statement]). *)
Definition execute_insert_animal (name center_id description price
    species_id age : string) : M unit :=
  if has_quote name || has_quote description
     || negb (bare_text bare_int center_id && bare_text bare_real price
              && bare_text bare_int species_id && bare_text bare_int age)
  then (λ _, ()) <$> execute_text
         (insert_animal_sql name center_id description price species_id age)
  else insert_animal_values name center_id description price species_id age.

(** ["SELECT * FROM animal WHERE id = (SELECT MAX(id) FROM animal);"] *)
Definition select_last_animal : M (list animal.row) :=
  execute_query (λ db,
    filter (λ a, Forall (λ b, (animal.id b ≤ animal.id a)%Z) (tbl_animal db))
           (tbl_animal db)).

(** [AnimalsDAO.add_animal] (dao.py): the row with the greatest
    identifier is taken for the one just inserted. *)
Definition AnimalsDAO_add_animal (data : dict) (userid : Z) : M dict :=
  name ← lift (getkey data "name");
  description ← lift (getkey data "description");
  price ← lift (getkey data "price");
  species_id ← lift (getkey data "species_id");
  age ← lift (getkey data "age");
  execute_insert_animal (str name) (int_str userid) (str description)
                        (str price) (str species_id) (str age);;
  animal ← first select_last_animal;
  lift (AnimalsDAO.deserialize (animal.to_row <$> animal) false).

(** [SpeciesORM.add_species] (dao_models.py). *)
Definition SpeciesORM_add_species (data : dict) : M dict :=
  name ← lift (getkey data "name");
  description ← lift (getkey data "description");
  price ← lift (getkey data "price");
  specie ← insert_species
    (<["name" := name]> (<["description" := description]>
     (<["price" := price]> ∅)));
  lift (SpeciesORM.deserialize (Some specie) true).

(** ["INSERT INTO species (name, description, price)
      VALUES ('{}', '{}', {});".format(...)] *)
Definition insert_species_sql (name description price : string) : string :=
  "INSERT INTO species (name, description, price) "
  ++ "VALUES ('" ++ name ++ "', '" ++ description ++ "', " ++ price ++ ");".

Definition insert_species_values (name description price : string)
    : M unit := λ db,
  match quoted_value name, quoted_value description, bare_real price with
  | Some name, Some description, Some price =>
    match insert_species
            (<["name" := name]> (<["description" := description]>
             (<["price" := price]> ∅))) db with
    | (Return _, db') => (Return (), db')
    | (Raise e, db') => (Raise e, db')
    end
  | _, _, _ => (Raise SQLAlchemyError, db)
  end.

Definition execute_insert_species (name description price : string)
    : M unit :=
  if has_quote name || has_quote description
     || negb (bare_text bare_real price)
  then (λ _, ()) <$> execute_text (insert_species_sql name description price)
  else insert_species_values name description price.

(** ["SELECT * FROM species WHERE id = (SELECT MAX(id) FROM species);"] *)
Definition select_last_species : M (list species.row) :=
  execute_query (λ db,
    filter (λ s, Forall (λ t, (species.id t ≤ species.id s)%Z) (tbl_species db))
           (tbl_species db)).

(** [SpeciesDAO.add_species] (dao.py). *)
Definition SpeciesDAO_add_species (data : dict) : M dict :=
  name ← lift (getkey data "name");
  description ← lift (getkey data "description");
  price ← lift (getkey data "price");
  execute_insert_species (str name) (str description) (str price);;
  specie ← first select_last_species;
  lift (SpeciesDAO.deserialize (species.to_row <$> specie) true).

(** A value that [AnimalsDAO_add_animal] pastes into its INSERT without
    changing the statement: a string without a quote for the name and
    the description, an int for the species and the age, a float that
    the engine can read for the price, or [None]. *)
Definition sql_field (key : string) (v : value) : Prop :=
  match v with
  | VNone => True
  | VInt _ => key ∈ ["species_id"; "age"]
  | VFloat f => key = "price" ∧ is_Some (real_literal (float_str f))
  | VStr s => key ∈ ["name"; "description"] ∧ has_quote s = false
  end.

#[global] Instance sql_field_dec (key : string) (v : value) :
  Decision (sql_field key v).
Proof. destruct v; simpl; apply _. Defined.

End inserting.

(** The fields that [add_animal] reads from its mapping. *)
Definition animal_fields : list string :=
  ["name"; "description"; "price"; "species_id"; "age"].

(** Each field that [data] has satisfies [P]. *)
Definition each_field (P : string → value → Prop) (data : dict) : Prop :=
  Forall (λ k, from_option (P k) True (data !! k)) animal_fields.

#[global] Instance each_field_dec (P : string → value → Prop)
    `{∀ k v, Decision (P k v)} (data : dict) : Decision (each_field P data).
Proof.
  apply Forall_dec. intros k. destruct (data !! k); simpl; apply _.
Defined.

(** [a] is the row that [add_animal] is to store for [data] and
    [userid] under the identifier [id]: the five submitted fields as
    they are in [data], the center set to [userid]. *)
Definition added (data : dict) (userid : Z) (id : Z) (a : animal.row) : Prop :=
  animal.id a = id
  ∧ animal.center_id a = Some userid
  ∧ Forall (λ k, data !! k = animal.attrs a !! k)
           ["name"; "description"; "price"; "species_id"; "age"].

(** [s] is the row that [add_species] is to store for [data] under the
    identifier [id]. *)
Definition added_species (data : dict) (id : Z) (s : species.row) : Prop :=
  species.id s = id
  ∧ Forall (λ k, data !! k = species_long s !! k)
           ["name"; "description"; "price"].

(** The identifiers that the next insert will get. *)
Definition next_animal_id `{Sequences} (db : DB) : Z :=
  next_id (clock db) (animal.id <$> tbl_animal db).

Definition next_species_id `{Sequences} (db : DB) : Z :=
  next_id (clock db) (species.id <$> tbl_species db).

(** A sequence that counts on from the greatest identifier, and an
    engine that can read the float zero. *)
#[local] Program Instance test_sequences : Sequences := {|
  next_id _ l := 1 + foldr Z.max 0 l
|}.
Next Obligation.
  intros n l i Hi. simpl.
  induction l as [|j l IH]; [by apply not_elem_of_nil in Hi|].
  simpl. apply elem_of_cons in Hi as [->|Hi]; [lia|]. apply IH in Hi. lia.
Qed.

Definition zero_str (f : spec_float) : string :=
  match f with
  | S754_zero false => "0.0"
  | _ => "nan"
  end.

Definition zero_literal (text : string) : option spec_float :=
  if decide (text = "0.0") then Some (S754_zero false) else None.

#[local] Program Instance float_backend : Backend := {|
  row_order A n l := if Nat.even n then l else reverse l;
  enforced _ _ _ := true;
  float_str := zero_str;
  real_literal := zero_literal;
  check_password_hash h p := bool_decide (h = p);
  other_statement _ db := (Raise SQLAlchemyError, db)
|}.
Next Obligation.
  intros A n l. simpl. destruct (Nat.even n); [done | apply reverse_Permutation].
Qed.

(** An animal and a species to add to [shop]. *)
Definition felix_data : dict :=
  <["name" := VStr "Felix"]> (<["description" := VStr "shy"]>
  (<["price" := VFloat (S754_zero false)]> (<["species_id" := VInt 101]>
  (<["age" := VInt 2]> ∅)))).

Definition felix : animal.row :=
  animal.mk 4 (Some 10) (Some "Felix") (Some "shy") (Some 2) (Some 101)
            (Some (S754_zero false)).

Definition bird_data : dict :=
  <["name" := VStr "bird"]> (<["description" := VStr "sings"]>
  (<["price" := VFloat (S754_zero false)]> ∅)).

Definition bird : species.row :=
  species.mk 103 (Some "bird") (Some "sings") (Some (S754_zero false)).

(** [shop] without the second species called dog. *)
Definition small_shop : DB := mkDB [north; south] [rex; tom; stray] [dog; cat] 0.

(** Rex, one year on and without a description. *)
Definition rex_update : dict :=
  <["description" := VNone]> (<["age" := VInt 4]> ∅).

Definition older_rex : animal.row :=
  animal.mk 1 (Some 10) (Some "Rex") None (Some 4) (Some 100) None.

(** Rex renamed, as [AnimalsDAO.update_animal] takes it. *)
Definition rex_renamed : dict :=
  <["id" := VInt 1]> (<["name" := VStr "Max"]> (<["age" := VInt 4]> ∅)).

(** * Theorems *)

(** ** The engine and the monad *)

Section facts.
Context `{Backend}.

Lemma row_order_nil A n : row_order A n [] = [].
Proof. apply Permutation_nil_r, row_order_perm. Qed.

Lemma row_order_elem A n (l : list A) x : x ∈ row_order A n l ↔ x ∈ l.
Proof. by rewrite row_order_perm. Qed.

Lemma first_select_run {A} (tbl : DB → list A) (P : A → Prop)
    `{∀ x, Decision (P x)} db :
  first (select tbl P) db
  = (Return (head (row_order A (clock db) (filter P (tbl db)))), tick db).
Proof. reflexivity. Qed.

(** No row satisfies the condition: [.first()] is [None]. *)
Lemma head_order_None {A} (P : A → Prop) `{∀ x, Decision (P x)} n (l : list A) :
  (∀ x, x ∈ l → ¬ P x) → head (row_order A n (filter P l)) = None.
Proof.
  intros Hno. apply head_None, Permutation_nil_r. rewrite row_order_perm.
  destruct (filter P l) as [|x l'] eqn:E; [done|].
  assert (x ∈ filter P l) as Hx by (rewrite E; left).
  apply list_elem_of_filter in Hx as [HP Hx]. by destruct (Hno x).
Qed.

(** Some row satisfies it: [.first()] is one of the rows that do. *)
Lemma head_order_Some {A} (P : A → Prop) `{∀ x, Decision (P x)} n (l : list A) x :
  x ∈ l → P x →
  ∃ y, head (row_order A n (filter P l)) = Some y ∧ y ∈ l ∧ P y.
Proof.
  intros Hx HP.
  destruct (head (row_order A n (filter P l))) as [y|] eqn:E.
  - exists y. split; [done|].
    apply head_Some_elem_of, row_order_elem, list_elem_of_filter in E.
    tauto.
  - apply head_None in E.
    assert (x ∈ row_order A n (filter P l)) as Hin
      by (apply row_order_elem, list_elem_of_filter; done).
    rewrite E in Hin. by apply not_elem_of_nil in Hin.
Qed.

Lemma mapM_Return {A B} (f : A → outcome B) (g : A → B) (l : list A) :
  (∀ x, f x = Return (g x)) → mapM f l = Return (g <$> l).
Proof.
  intros Hf. induction l as [|x l IH]; [done|].
  simpl. rewrite Hf. simpl. by rewrite IH.
Qed.

End facts.

Section animals.
Context `{Backend}.

Lemma dao_deserialize_long (a : animal.row) :
  AnimalsDAO.deserialize (Some (animal.to_row a)) true = Return (animal.attrs a).
Proof. reflexivity. Qed.

Lemma orm_deserialize_long (a : animal.row) :
  AnimalORM.deserialize (Some a) true = Return (animal.attrs a).
Proof. reflexivity. Qed.

Lemma entity_deserialize_long (a : animal.row) r :
  Animal.deserialize a r true = Return (animal.attrs a).
Proof. reflexivity. Qed.

Lemma dao_deserialize_short (a : animal.row) :
  AnimalsDAO.deserialize (Some (animal.to_row a)) false = Return (animal_short a).
Proof. reflexivity. Qed.

Lemma animal_attrs_dom (a : animal.row) :
  dom (animal.attrs a)
  = list_to_set ["id"; "center_id"; "name"; "description"; "age";
                 "species_id"; "price"].
Proof.
  unfold animal.attrs, animal.to_row. simpl.
  rewrite !dom_insert_L, dom_empty_L. set_solver.
Qed.

Lemma animal_attrs_id (a : animal.row) :
  animal.attrs a !! "id" = Some (VInt (animal.id a)).
Proof. reflexivity. Qed.

(** What the three [get_animal] do with the row that [.first()] or
    [query.get] hands them. *)
Lemma dao_get_animal_run animal_id db :
  (AnimalsDAO.get_animal animal_id db).1
  = Return (animal.attrs <$>
      head (row_order _ (clock db)
              (filter (λ a, animal.id a = animal_id) (tbl_animal db)))).
Proof.
  unfold AnimalsDAO.get_animal, mbind, M_bind. rewrite first_select_run.
  destruct (head _) as [a|]; reflexivity.
Qed.

Lemma orm_get_animal_run animal_id db :
  (AnimalORM.get_animal animal_id db).1
  = Return (animal.attrs <$>
      head (row_order _ (clock db)
              (filter (λ a, animal.id a = animal_id) (tbl_animal db)))).
Proof.
  unfold AnimalORM.get_animal, query_get, mbind, M_bind.
  rewrite first_select_run.
  destruct (head _) as [a|]; reflexivity.
Qed.

Lemma entity_get_animal_run animal_id db :
  (Animal.get_animal animal_id db).1
  = match head (row_order _ (clock db)
                  (filter (λ a, animal.id a = animal_id) (tbl_animal db))) with
    | Some a => Return (Some (animal.attrs a))
    | None => Raise AttributeError
    end.
Proof.
  unfold Animal.get_animal, query_get, mbind, M_bind.
  rewrite first_select_run.
  destruct (head _) as [a|]; reflexivity.
Qed.

Lemma absent_no_row (db : DB) (animal_id : Z) :
  animal_id ∉ animal.id <$> tbl_animal db →
  ∀ a, a ∈ tbl_animal db → ¬ animal.id a = animal_id.
Proof. intros Hno a Ha <-. apply Hno, list_elem_of_fmap. eauto. Qed.

Lemma get_animal_absent (db : DB) (animal_id : Z) :
  animal_id ∉ animal.id <$> tbl_animal db →
  (AnimalsDAO.get_animal animal_id db).1 = Return None
  ∧ (AnimalORM.get_animal animal_id db).1 = Return None.
Proof.
  intros Hno. rewrite dao_get_animal_run, orm_get_animal_run.
  by rewrite (head_order_None _ _ _ (absent_no_row db animal_id Hno)).
Qed.

Lemma get_animal_present (db : DB) (animal_id : Z) :
  animal_id ∈ animal.id <$> tbl_animal db →
  ∃ a, head (row_order _ (clock db)
               (filter (λ a, animal.id a = animal_id) (tbl_animal db)))
       = Some a
     ∧ long_animal db animal_id (animal.attrs a).
Proof.
  intros (a0 & -> & Ha0)%list_elem_of_fmap.
  destruct (head_order_Some (λ a, animal.id a = animal.id a0) (clock db)
              (tbl_animal db) a0 Ha0 eq_refl) as (a & Hhead & Ha & Hid).
  exists a. split; [done|]. split; [|split].
  - by exists a.
  - apply animal_attrs_dom.
  - by rewrite animal_attrs_id, Hid.
Qed.

(** C3.  For an identifier that is stored, [get_animal] of the SQL and of
    the ORM data access return the long mapping of a stored row with
    that identifier: its keys are id, center_id, name, description, age,
    species_id and price, and its [id] is the identifier asked for.  For
    an identifier that is not stored, both return [None]. *)
Theorem get_animal_by_id (db : DB) (animal_id : Z) :
  (animal_id ∈ animal.id <$> tbl_animal db →
   (∃ data, (AnimalsDAO.get_animal animal_id db).1 = Return (Some data)
          ∧ long_animal db animal_id data)
   ∧ (∃ data, (AnimalORM.get_animal animal_id db).1 = Return (Some data)
            ∧ long_animal db animal_id data))
  ∧ (animal_id ∉ animal.id <$> tbl_animal db →
     (AnimalsDAO.get_animal animal_id db).1 = Return None
     ∧ (AnimalORM.get_animal animal_id db).1 = Return None).
Proof.
  split; [|apply get_animal_absent].
  intros (a & Hhead & Hlong)%get_animal_present.
  rewrite dao_get_animal_run, orm_get_animal_run, Hhead.
  split; by exists (animal.attrs a).
Qed.

(** The other single-record lookups return [None] when nothing matches
    (for the SQL lookup by login: as long as the login has no quote in
    it). *)
Lemma lookups_absent (db : DB) (id : Z) (user_login : string) :
  (id ∉ animal_center.id <$> tbl_animal_center db →
   (AnimalCentersDAO.get_center_inform id db).1 = Return None
   ∧ (AnimalCenterORM.get_center_inform id db).1 = Return None
   ∧ (AnimalCenter.get_center_inform id db).1 = Return None)
  ∧ (id ∉ species.id <$> tbl_species db →
     (SpeciesDAO.get_species_inform id db).1 = Return None
     ∧ (SpeciesORM.get_species_inform id db).1 = Return None
     ∧ (Species.get_species_inform id db).1 = Return None)
  ∧ (Some user_login ∉ animal_center.login <$> tbl_animal_center db →
     (AnimalCenterORM.get_center_by_login user_login db).1 = Return None
     ∧ (AnimalCenter.get_center_by_login user_login db).1 = Return None
     ∧ (has_quote user_login = false →
        (AnimalCentersDAO.get_center_by_login user_login db).1 = Return None)).
Proof.
  split; [|split]; intros Hno; repeat split; try intros Hq.
  all: unfold AnimalCentersDAO.get_center_inform,
         AnimalCenterORM.get_center_inform, AnimalCenter.get_center_inform,
         SpeciesDAO.get_species_inform, SpeciesORM.get_species_inform,
         Species.get_species_inform, AnimalCenterORM.get_center_by_login,
         AnimalCenter.get_center_by_login,
         AnimalCentersDAO.get_center_by_login, query_get, mbind, M_bind.
  all: try rewrite Hq.
  all: rewrite first_select_run, head_order_None; [done|].
  all: intros x Hx Hid; apply Hno, list_elem_of_fmap; eauto.
Qed.

(** C1.  [Animal.get_animal] of models.py has no test of the row it
    fetched: for an identifier that is not stored it raises
    AttributeError, where [get_animal] of the two data-access classes
    return [None]. *)
Theorem entity_get_animal_absent (db : DB) (animal_id : Z) :
  animal_id ∉ animal.id <$> tbl_animal db →
  Animal.get_animal animal_id db = (Raise AttributeError, tick db)
  ∧ (AnimalsDAO.get_animal animal_id db).1 = Return None
  ∧ (AnimalORM.get_animal animal_id db).1 = Return None.
Proof.
  intros Hno. split; [|by apply get_animal_absent].
  unfold Animal.get_animal, query_get, mbind, M_bind.
  rewrite first_select_run.
  by rewrite (head_order_None _ _ _ (absent_no_row db animal_id Hno)).
Qed.

End animals.

Lemma get_animal_by_id_witness :
  ((∃ data, (@AnimalsDAO.get_animal test_backend 2 shop).1 = Return (Some data)
          ∧ long_animal shop 2 data)
   ∧ (∃ data, (@AnimalORM.get_animal test_backend 2 shop).1 = Return (Some data)
            ∧ long_animal shop 2 data))
  ∧ (@AnimalsDAO.get_animal test_backend 7 shop).1 = Return None
  ∧ (@AnimalORM.get_animal test_backend 7 shop).1 = Return None.
Proof.
  split.
  - apply (proj1 (@get_animal_by_id test_backend shop 2)).
    compute_done.
  - apply (proj2 (@get_animal_by_id test_backend shop 7)).
    compute_done.
Defined.

Lemma entity_get_animal_absent_witness :
  @Animal.get_animal test_backend 7 shop = (Raise AttributeError, tick shop).
Proof.
  apply (@entity_get_animal_absent test_backend shop 7).
  compute_done.
Defined.

(** ** Deleting an animal *)

Section delete.
Context `{Backend}.

Lemma filter_keeps_all {A} (P : A → Prop) `{∀ x, Decision (P x)} (l : list A) :
  (∀ x, x ∈ l → P x) → filter P l = l.
Proof.
  induction l as [|x l IH]; intros Hall; [done|].
  rewrite filter_cons_True by (apply Hall; left).
  f_equal. apply IH. intros y Hy. apply Hall. by right.
Qed.

(** C2.  For an identifier that is not stored, [delete_animal] of the ORM
    data access and of the mapped class hand [None] to
    [db.session.delete] and raise UnmappedInstanceError; only the SQL
    data access returns and leaves the rows of [animal] as they were. *)
Theorem delete_animal_absent (db : DB) (animal_id : Z) :
  animal_id ∉ animal.id <$> tbl_animal db →
  AnimalORM.delete_animal animal_id db = (Raise UnmappedInstanceError, tick db)
  ∧ Animal.delete_animal animal_id db = (Raise UnmappedInstanceError, tick db)
  ∧ ∃ db', AnimalsDAO.delete_animal animal_id db = (Return (), db')
         ∧ tbl_animal db' = tbl_animal db.
Proof.
  intros Hno. pose proof (absent_no_row db animal_id Hno) as Hrows.
  repeat split.
  - unfold AnimalORM.delete_animal, query_get, mbind, M_bind.
    rewrite first_select_run. by rewrite (head_order_None _ _ _ Hrows).
  - unfold Animal.delete_animal, query_get, mbind, M_bind.
    rewrite first_select_run. by rewrite (head_order_None _ _ _ Hrows).
  - eexists. split; [reflexivity|]. simpl. by apply filter_keeps_all.
Qed.

End delete.

Lemma delete_animal_absent_witness :
  @AnimalORM.delete_animal test_backend 7 shop
  = (Raise UnmappedInstanceError, tick shop).
Proof.
  apply (@delete_animal_absent test_backend shop 7).
  compute_done.
Defined.

(** ** Passwords *)

Section passwords.
Context `{Backend}.

Lemma center_absent_no_row (db : DB) (user_id : Z) :
  user_id ∉ animal_center.id <$> tbl_animal_center db →
  ∀ c, c ∈ tbl_animal_center db → ¬ animal_center.id c = user_id.
Proof. intros Hno c Hc <-. apply Hno, list_elem_of_fmap. eauto. Qed.

Lemma dao_check_password_absent (db : DB) (password : string) (user_id : Z) :
  user_id ∉ animal_center.id <$> tbl_animal_center db →
  AnimalCentersDAO.check_password password user_id db
  = (Raise AttributeError, tick db).
Proof.
  intros Hno. unfold AnimalCentersDAO.check_password, mbind, M_bind.
  rewrite first_select_run.
  by rewrite (head_order_None _ _ _ (center_absent_no_row db user_id Hno)).
Qed.

Lemma orm_check_password_absent (db : DB) (password : string) (user_id : Z) :
  user_id ∉ animal_center.id <$> tbl_animal_center db →
  AnimalCenterORM.check_password password user_id db
  = (Raise AttributeError, tick db).
Proof.
  intros Hno. unfold AnimalCenterORM.check_password, query_get, mbind, M_bind.
  rewrite first_select_run.
  by rewrite (head_order_None _ _ _ (center_absent_no_row db user_id Hno)).
Qed.

(** C10.  [check_password] of the SQL and of the ORM data access read
    [password_hash] from the record without a test: for an identifier
    with no center row both raise AttributeError, neither [False] nor
    [None] comes back; so whenever one of them returns a boolean, a
    center row with that identifier exists. *)
Theorem check_password_needs_center (db : DB) (password : string) (user_id : Z) :
  (user_id ∉ animal_center.id <$> tbl_animal_center db →
   AnimalCentersDAO.check_password password user_id db
   = (Raise AttributeError, tick db)
   ∧ AnimalCenterORM.check_password password user_id db
     = (Raise AttributeError, tick db))
  ∧ (∀ b : bool,
       (AnimalCentersDAO.check_password password user_id db).1 = Return b
       ∨ (AnimalCenterORM.check_password password user_id db).1 = Return b →
       user_id ∈ animal_center.id <$> tbl_animal_center db).
Proof.
  split.
  - intros Hno. split.
    + by apply dao_check_password_absent.
    + by apply orm_check_password_absent.
  - intros b Hb.
    destruct (decide (user_id ∈ animal_center.id <$> tbl_animal_center db))
      as [|Hno]; [done|].
    rewrite dao_check_password_absent, orm_check_password_absent in Hb by done.
    by destruct Hb.
Qed.

(** With a row for the identifier and a hash stored in it, both return
    the verdict of werkzeug on that hash. *)
Lemma check_password_present (db : DB) (password : string) (user_id : Z) :
  user_id ∈ animal_center.id <$> tbl_animal_center db →
  ∃ c, c ∈ tbl_animal_center db ∧ animal_center.id c = user_id
     ∧ (AnimalCentersDAO.check_password password user_id db).1
       = werkzeug_check (py_str (animal_center.password_hash c)) password
     ∧ (AnimalCenterORM.check_password password user_id db).1
       = werkzeug_check (py_str (animal_center.password_hash c)) password.
Proof.
  intros (c0 & -> & Hc0)%list_elem_of_fmap.
  destruct (head_order_Some (λ c, animal_center.id c = animal_center.id c0)
              (clock db) (tbl_animal_center db) c0 Hc0 eq_refl)
    as (c & Hhead & Hc & Hid).
  exists c. repeat split; [done..| |].
  - unfold AnimalCentersDAO.check_password, mbind, M_bind.
    rewrite first_select_run, Hhead. reflexivity.
  - unfold AnimalCenterORM.check_password, query_get, mbind, M_bind.
    rewrite first_select_run, Hhead. reflexivity.
Qed.

(** C7.  [AnimalCenter.check_password] of models.py gives the same
    result whatever is passed as [user_id], [None] included: the verdict
    of werkzeug on the hash of the instance it is called on (and
    AttributeError when the instance holds no hash). *)
Theorem entity_check_password_ignores_id (self : animal_center.row)
    (password : string) (user_id user_id' : option Z) :
  AnimalCenter.check_password self password user_id
  = AnimalCenter.check_password self password user_id'
  ∧ AnimalCenter.check_password self password user_id
    = match animal_center.password_hash self with
      | Some h => Return (check_password_hash h password)
      | None => Raise AttributeError
      end.
Proof.
  split; [reflexivity|].
  unfold AnimalCenter.check_password. by destruct (animal_center.password_hash self).
Qed.

End passwords.

Lemma check_password_needs_center_witness :
  @AnimalCentersDAO.check_password test_backend "pw" 12 shop
  = (Raise AttributeError, tick shop)
  ∧ @AnimalCenterORM.check_password test_backend "pw" 12 shop
    = (Raise AttributeError, tick shop).
Proof.
  apply (proj1 (@check_password_needs_center test_backend shop "pw" 12)).
  compute_done.
Defined.

(** ** Deserializers without the long flag *)

Section short_forms.
Context `{Backend}.

(** C8.  Without the long flag the deserializer of [Species] (and its
    copy in [SpeciesORM]) produces no value: [data] is bound under
    [if long] only, so [return data] raises UnboundLocalError.  The
    deserializers of [Animal] and [AnimalCenter] (and their copies in
    the ORM data access) return the short mapping. *)
Theorem species_deserialize_short (s : species.row) (rs : option species.row)
    (a : animal.row) (ra : option animal.row)
    (c : animal_center.row) (rc : option animal_center.row) :
  Species.deserialize s rs false = Raise UnboundLocalError
  ∧ SpeciesORM.deserialize rs false = Raise UnboundLocalError
  ∧ (∀ data, Species.deserialize s rs false ≠ Return data)
  ∧ Animal.deserialize a ra false = Return (animal_short a)
  ∧ AnimalORM.deserialize (Some a) false = Return (animal_short a)
  ∧ AnimalCenter.deserialize c rc false = Return (center_short c)
  ∧ AnimalCenterORM.deserialize (Some c) false = Return (center_short c).
Proof. repeat split; done. Qed.

(** [SpeciesDAO.deserialize] has another shape: without the long flag it
    returns the mapping of a listing row, whatever the row is. *)
Lemma species_dao_deserialize_short (s : species.row) :
  SpeciesDAO.deserialize (Some (species.to_row s)) false
  = Return (<["species_name" := VInt (species.id s)]>
            (<["count_of_animals" := py_str (species.name s)]> ∅)).
Proof. reflexivity. Qed.

End short_forms.

(** ** Listing the animals *)

Section listing.
Context `{Backend}.

Lemma scan_perm (db : DB) : scan db ≡ₚ tbl_animal db.
Proof.
  unfold scan. rewrite row_order_perm. by rewrite filter_keeps_all.
Qed.

Lemma dao_get_animals_run (db : DB) :
  AnimalsDAO.get_animals db = (Return (animal_short <$> scan db), tick db).
Proof.
  unfold AnimalsDAO.get_animals, mbind, M_bind, select, execute_query, lift.
  by rewrite (mapM_Return _ animal_short).
Qed.

Lemma orm_get_animals_run (db : DB) :
  AnimalORM.get_animals db = (Return (animal_short <$> scan db), tick db).
Proof.
  unfold AnimalORM.get_animals, mbind, M_bind, select, execute_query, lift.
  by rewrite (mapM_Return _ animal_short).
Qed.

Lemma entity_get_animals_run (db : DB) :
  Animal.get_animals db = (Return (animal_short <$> scan db), tick db).
Proof.
  unfold Animal.get_animals, mbind, M_bind, select, execute_query, lift.
  by rewrite (mapM_Return _ animal_short).
Qed.

Lemma stable_listing_intro (get_animals : M (list dict)) (db : DB) :
  (∀ db, get_animals db = (Return (animal_short <$> scan db), tick db)) →
  stable_listing get_animals db.
Proof.
  intros Hrun.
  exists (animal_short <$> scan db), (animal_short <$> scan (tick db)), (tick (tick db)).
  assert (∀ db m, m ∈ animal_short <$> scan db
                  ↔ ∃ a, a ∈ tbl_animal db ∧ m = animal_short a) as Hset.
  { intros db1 m. rewrite list_elem_of_fmap. setoid_rewrite scan_perm.
    split; intros (a & H1 & H2); eauto. }
  repeat split.
  - unfold twice, mbind, M_bind. by rewrite !Hrun.
  - intros Hm. apply Hset. by apply Hset in Hm.
  - intros Hm. apply Hset. by apply Hset in Hm.
  - by apply Hset.
  - by apply Hset.
Qed.

(** C9.  In each of the three implementations, two calls of
    [get_animals] with nothing in between return two sequences with the
    same elements, the [{id, name}] mappings of the stored animals; the
    order of each is the engine's choice. *)
Theorem get_animals_twice (db : DB) :
  stable_listing AnimalsDAO.get_animals db
  ∧ stable_listing AnimalORM.get_animals db
  ∧ stable_listing Animal.get_animals db.
Proof.
  repeat split; apply stable_listing_intro.
  - apply dao_get_animals_run.
  - apply orm_get_animals_run.
  - apply entity_get_animals_run.
Qed.

End listing.

(** The two sequences need not be equal: on this engine the second call
    returns the rows in the other order. *)
Example get_animals_twice_order :
  (@twice (list dict) (@AnimalsDAO.get_animals test_backend) shop).1
  = Return ([animal_short rex; animal_short tom; animal_short stray],
            [animal_short stray; animal_short tom; animal_short rex]).
Proof. reflexivity. Qed.

(** ** The detail of a center *)

Section center_detail.
Context `{Backend}.

Lemma dao_center_deserialize_long (c : animal_center.row) :
  AnimalCentersDAO.deserialize (Some (animal_center.to_row c)) true
  = Return (center_long c).
Proof. reflexivity. Qed.

Lemma center_long_id (c : animal_center.row) :
  center_long c !! "id" = Some (VInt (animal_center.id c)).
Proof. reflexivity. Qed.

Lemma center_long_dom (c : animal_center.row) :
  dom (center_long c) = list_to_set ["id"; "login"; "address"].
Proof.
  unfold center_long, center_short.
  rewrite !dom_insert_L, dom_empty_L. set_solver.
Qed.

(** The SQL data access does what is asked of the operation: for a
    stored center, the long mapping of a row with that identifier and the
    short mappings of exactly the animals of that center. *)
Lemma dao_get_center_inform_present (db : DB) (id : Z) :
  id ∈ animal_center.id <$> tbl_animal_center db →
  ∃ c animals,
    (AnimalCentersDAO.get_center_inform id db).1
    = Return (Some (center_long c, animals))
    ∧ c ∈ tbl_animal_center db
    ∧ center_long c !! "id" = Some (VInt id)
    ∧ dom (center_long c) = list_to_set ["id"; "login"; "address"]
    ∧ ∀ m, m ∈ animals
           ↔ ∃ a, a ∈ tbl_animal db ∧ animal.center_id a = Some id
                ∧ m = animal_short a.
Proof.
  intros (c0 & -> & Hc0)%list_elem_of_fmap.
  destruct (head_order_Some (λ c, animal_center.id c = animal_center.id c0)
              (clock db) (tbl_animal_center db) c0 Hc0 eq_refl)
    as (c & Hhead & Hc & Hid).
  exists c. eexists. split; [|split; [done|split; [|split]]].
  - unfold AnimalCentersDAO.get_center_inform, mbind, M_bind.
    rewrite first_select_run, Hhead.
    unfold select, execute_query, lift. simpl.
    rewrite (mapM_Return _ animal_short) by done. reflexivity.
  - by rewrite center_long_id, Hid.
  - apply center_long_dom.
  - intros m. rewrite list_elem_of_fmap.
    setoid_rewrite row_order_elem. setoid_rewrite list_elem_of_filter.
    split.
    + intros (a & -> & Hcid & Ha). eauto.
    + intros (a & Ha & Hcid & ->). eauto.
Qed.

(** C4.  For a stored center, [get_center_inform] of the ORM data access
    builds the center mapping and then reads [record.animals], an
    attribute that [AnimalCenter] does not have: it raises
    AttributeError.  The method of the mapped class returns the long
    center mapping alone, not a pair.  Only the SQL data access returns
    the pair ([dao_get_center_inform_present]). *)
Theorem orm_get_center_inform_present (db : DB) (id : Z) :
  id ∈ animal_center.id <$> tbl_animal_center db →
  AnimalCenterORM.get_center_inform id db = (Raise AttributeError, tick db)
  ∧ ∃ c, c ∈ tbl_animal_center db ∧ animal_center.id c = id
       ∧ AnimalCenter.get_center_inform id db
         = (Return (Some (center_long c)), tick db).
Proof.
  intros (c0 & -> & Hc0)%list_elem_of_fmap.
  destruct (head_order_Some (λ c, animal_center.id c = animal_center.id c0)
              (clock db) (tbl_animal_center db) c0 Hc0 eq_refl)
    as (c & Hhead & Hc & Hid).
  split.
  - unfold AnimalCenterORM.get_center_inform, query_get, mbind, M_bind.
    rewrite first_select_run, Hhead. reflexivity.
  - exists c. split; [done|split; [done|]].
    unfold AnimalCenter.get_center_inform, query_get, mbind, M_bind.
    rewrite first_select_run, Hhead. reflexivity.
Qed.

End center_detail.

Lemma orm_get_center_inform_present_witness :
  @AnimalCenterORM.get_center_inform test_backend 10 shop
  = (Raise AttributeError, tick shop).
Proof.
  apply (@orm_get_center_inform_present test_backend shop 10).
  compute_done.
Defined.

(** ** Listing the species *)

Section dups.
Context {A : Type} `{EqDecision A}.

Lemma remove_dups_length_le (l : list A) : (length (remove_dups l) ≤ length l)%nat.
Proof.
  induction l as [|x l IH]; simpl; [done|].
  destruct (decide_rel elem_of x l); simpl; lia.
Qed.

Lemma remove_dups_NoDup (l : list A) : NoDup l → remove_dups l = l.
Proof.
  induction 1 as [|x l Hx _ IH]; simpl; [done|].
  destruct (decide_rel elem_of x l); [done|]. by rewrite IH.
Qed.

Lemma remove_dups_shorter (l : list A) :
  ¬ NoDup l → (length (remove_dups l) < length l)%nat.
Proof.
  induction l as [|x l IH]; intros Hdup.
  - destruct Hdup. constructor.
  - simpl. destruct (decide_rel elem_of x l) as [Hx|Hx].
    + pose proof (remove_dups_length_le l). lia.
    + simpl. apply Nat.succ_lt_mono in IH; [done|].
      intros Hl. apply Hdup. by constructor.
Qed.

End dups.

Lemma shared_key_dup {A K} (f : A → K) (l : list A) (x y : A) :
  x ∈ l → y ∈ l → x ≠ y → f x = f y → ¬ NoDup (f <$> l).
Proof.
  intros [i Hi]%list_elem_of_lookup [j Hj]%list_elem_of_lookup Hxy Hf Hnd.
  assert (i = j) as ->.
  { eapply (NoDup_lookup _ i j (f x) Hnd).
    - by rewrite list_lookup_fmap, Hi.
    - by rewrite list_lookup_fmap, Hj, Hf. }
  congruence.
Qed.

Lemma mapM_length {A B} (f : A → outcome B) (l : list A) (l' : list B) :
  mapM f l = Return l' → length l' = length l.
Proof.
  revert l'. induction l as [|x l IH]; intros l' Hl'; simpl in *.
  - by injection Hl' as <-.
  - destruct (f x) as [y|]; [|done]. simpl in Hl'.
    destruct (mapM f l) as [k|]; [|done]. simpl in Hl'.
    injection Hl' as <-. simpl. f_equal. by apply IH.
Qed.

Lemma mapM_total {A B} (f : A → outcome B) (l : list A) :
  (∀ x, x ∈ l → ∃ y, f x = Return y) → ∃ l', mapM f l = Return l'.
Proof.
  induction l as [|x l IH]; intros Hf; simpl; [by eexists|].
  destruct (Hf x) as [y ->]; [left|].
  destruct IH as [k ->]; [intros z Hz; apply Hf; by right|].
  by eexists.
Qed.

Section species_listing.
Context `{Backend}.

Lemma group_by_length {A K} `{EqDecision K} (key : A → K) (l : list A) :
  length (group_by key l) = length (remove_dups (key <$> l)).
Proof. unfold group_by. by rewrite length_fmap. Qed.

(** The SQL listing has one row per distinct species name. *)
Lemma dao_get_species_rows (db : DB) :
  ∃ l, SpeciesDAO.get_species db = (Return l, tick db)
     ∧ length l = length (remove_dups (species.name <$> tbl_species db)).
Proof.
  unfold SpeciesDAO.get_species, mbind, M_bind, execute_query, lift.
  match goal with |- context [mapM ?f ?rows] =>
    destruct (mapM_total f rows) as [l Hl] end.
  - intros r (g & -> & _)%row_order_elem%list_elem_of_fmap. by eexists.
  - exists l. rewrite Hl. split; [done|].
    rewrite (mapM_length _ _ _ Hl), row_order_perm, length_fmap.
    apply group_by_length.
Qed.

(** The ORM listing has one row per distinct species identifier. *)
Lemma orm_get_species_rows (db : DB) :
  ∃ l, SpeciesORM.get_species db = (Return l, tick db)
     ∧ length l = length (remove_dups (species.id <$> tbl_species db)).
Proof.
  eexists. split; [reflexivity|].
  rewrite length_fmap, row_order_perm, length_fmap. apply group_by_length.
Qed.

End species_listing.

(** In [shop] two species are called dog: one row for both in the SQL
    listing, one row each in the ORM listing. *)
Example species_listings_shop :
  (@SpeciesDAO.get_species test_backend shop).1
  = Return [<["species_name" := VStr "cat"]> (<["count_of_animals" := VInt 1]> ∅);
            <["species_name" := VStr "dog"]> (<["count_of_animals" := VInt 1]> ∅)]
  ∧ (@SpeciesORM.get_species test_backend shop).1
    = Return [<["species_name" := VStr "dog"]> (<["count_of_animals" := VInt 1]> ∅);
              <["species_name" := VStr "cat"]> (<["count_of_animals" := VInt 1]> ∅);
              <["species_name" := VStr "dog"]> (<["count_of_animals" := VInt 0]> ∅)].
Proof. split; reflexivity. Qed.

(** ** Updating an animal *)

Lemma int_literal_str (n : Z) : int_literal (int_str n) = Some n.
Proof.
  unfold int_literal, int_str. rewrite NilZero.isi.
  - simpl. by rewrite DecimalZ.of_to.
  - destruct n; simpl; try discriminate.
    intros [= Hp]. by apply Unsigned.to_uint_nonnil in Hp.
  - destruct n; simpl; try discriminate.
    intros [= Hp]. by apply Unsigned.to_uint_nonnil in Hp.
Qed.

Lemma pk_unique (l : list animal.row) (x y : animal.row) :
  NoDup (animal.id <$> l) → x ∈ l → y ∈ l → animal.id x = animal.id y → x = y.
Proof.
  intros Hnd Hx Hy Hid. destruct (decide (x = y)) as [|Hne]; [done|].
  by destruct (shared_key_dup animal.id l x y).
Qed.

Lemma replace_row_same (l : list animal.row) (a : animal.row) :
  NoDup (animal.id <$> l) → a ∈ l → replace_row a a l = l.
Proof.
  intros Hnd Ha. unfold replace_row.
  rewrite <- (list_fmap_id l) at 2. apply Forall_fmap_ext, Forall_forall.
  intros b Hb. case_decide; [|done]. symmetry. by apply (pk_unique l).
Qed.

(** The other rows are not touched by [replace_row]. *)
Lemma replace_row_others (l : list animal.row) (a a' b : animal.row) :
  animal.id a' = animal.id a → animal.id b ≠ animal.id a →
  b ∈ replace_row a a' l ↔ b ∈ l.
Proof.
  intros Hid Hb. unfold replace_row. rewrite list_elem_of_fmap. split.
  - intros (c & -> & Hc). case_decide; [congruence|done].
  - intros Hin. exists b. by rewrite decide_False.
Qed.

Section update.
Context `{Backend}.

Lemma animal_of_attrs_attrs (a : animal.row) :
  animal_of_attrs (animal.attrs a) = Some a.
Proof. destruct a as [i [c|] [n|] [d|] [g|] [s|] [p|]]; reflexivity. Qed.

(** The loop of [setattr] leaves the instance with the attributes of
    [data_upd] on top of those it had. *)
Lemma map_fold_setattr (data_upd obj : dict) :
  map_fold (λ key value obj, <[key := value]> obj) obj data_upd = data_upd ∪ obj.
Proof.
  apply (map_fold_weak_ind (λ r m, r = m ∪ obj)).
  - by rewrite (left_id_L ∅ (∪)).
  - intros i x m r _ ->. by rewrite insert_union_l.
Qed.

Lemma write_animal_ok (db : DB) (a a' : animal.row) :
  NoDup (animal.id <$> tbl_animal db) → a ∈ tbl_animal db →
  animal.id a' = animal.id a →
  enforced (tbl_animal_center db) (replace_row a a' (tbl_animal db))
           (tbl_species db) = true →
  ∃ db', write_animal a a' db = (Return (), db')
       ∧ tbl_animal db' = replace_row a a' (tbl_animal db).
Proof.
  intros Hpk Ha Hid Henf. unfold write_animal.
  destruct (decide (a' = a)) as [->|Hne].
  { exists db. by rewrite replace_row_same. }
  rewrite decide_False.
  - rewrite Henf. by eexists.
  - intros (b & Hb & [Hne' _]%list_elem_of_filter)%list_elem_of_fmap.
    congruence.
Qed.

Lemma find_by_key (db : DB) (a : animal.row) :
  NoDup (animal.id <$> tbl_animal db) → a ∈ tbl_animal db →
  ∃ i, list_find (λ b, animal.id b = animal.id a) (tbl_animal db) = Some (i, a).
Proof.
  intros Hpk Ha.
  destruct (list_find _ (tbl_animal db)) as [[i b]|] eqn:E.
  - apply list_find_Some in E as (Hi & Hid & _). exists i. do 2 f_equal.
    apply (pk_unique (tbl_animal db)); [done| |done..].
    apply list_elem_of_lookup. eauto.
  - apply list_find_None in E. rewrite Forall_forall in E. by destruct (E a).
Qed.

(** C5.  [AnimalsDAO.update_animal] pastes [str(value)] between quotes:
    for the mapping [{'id': i, 'description': None}] the statement is
    [UPDATE animal SET description='None' WHERE id=i], and the stored
    description becomes the text ["None"], not the value supplied.  (The
    loop of [setattr] in the ORM data access stores the value itself,
    see [orm_update_animal_frame].) *)
Theorem dao_update_animal_none (db : DB) (a : animal.row) :
  NoDup (animal.id <$> tbl_animal db) → a ∈ tbl_animal db →
  enforced (tbl_animal_center db)
           (replace_row a (with_description a (Some "None")) (tbl_animal db))
           (tbl_species db) = true →
  ∃ db',
    AnimalsDAO.update_animal
      (Some (<["id" := VInt (animal.id a)]> (<["description" := VNone]> ∅)))
      None None db
    = (Return (), db')
    ∧ tbl_animal db'
      = replace_row a (with_description a (Some "None")) (tbl_animal db)
    ∧ with_description a (Some "None") ∈ tbl_animal db'.
Proof.
  intros Hpk Ha Henf.
  destruct (write_animal_ok db a (with_description a (Some "None")))
    as (db' & Hw & Htbl); [done..|].
  exists db'. split; [|split; [done|]].
  - unfold AnimalsDAO.update_animal.
    change ((<["id" := VInt (animal.id a)]> (<["description" := VNone]> ∅) : dict)
            !! "id") with (Some (VInt (animal.id a))).
    change (map_to_list (delete "id"
              (<["id" := VInt (animal.id a)]> (<["description" := VNone]> ∅) : dict)))
      with [("description", VNone)].
    unfold AnimalsDAO.execute_update. simpl fmap.
    change (str (VInt (animal.id a))) with (int_str (animal.id a)).
    rewrite int_literal_str.
    destruct (find_by_key db a Hpk Ha) as [i ->].
    change (existsb _ _) with false. cbv iota.
    replace (AnimalsDAO.assign _ (animal.attrs a) ≫= animal_of_attrs)
      with (Some (with_description a (Some "None"))); [done|].
    destruct a as [i' [c|] [n|] [d|] [g|] [s|] [p|]]; reflexivity.
  - rewrite Htbl. unfold replace_row. apply list_elem_of_fmap.
    exists a. by rewrite decide_True.
Qed.

(** A mapping with nothing but the key: the SET clause is empty and the
    engine refuses the statement, where the loop of [setattr] has nothing
    to do. *)
Lemma dao_update_animal_empty (db : DB) (animal_id : value) :
  AnimalsDAO.update_animal (Some (<["id" := animal_id]> ∅)) None None db
  = (Raise SQLAlchemyError, db).
Proof. reflexivity. Qed.

(** Called with the field mapping and the identifier alone, as the two
    other implementations are, it fails on [None.pop]. *)
Lemma dao_update_animal_no_mapping (db : DB) (data_upd : option dict)
    (animal_id : option Z) :
  AnimalsDAO.update_animal None data_upd animal_id db
  = (Raise AttributeError, db).
Proof. reflexivity. Qed.

(** The loop of [setattr], in [AnimalORM] and in [Animal]: when [a'] is
    the row [a] with the columns named in [data_upd] set to the values
    given there and every other column as it was, the key unchanged, the
    update stores [a'] in place of [a] and no other row changes. *)
Lemma orm_update_animal_frame (db : DB) (a a' : animal.row) (data_upd : dict) :
  NoDup (animal.id <$> tbl_animal db) → a ∈ tbl_animal db →
  animal.id a' = animal.id a →
  (∀ k, k ∈ dom (animal.attrs a) →
        animal.attrs a' !! k = (data_upd ∪ animal.attrs a) !! k) →
  enforced (tbl_animal_center db) (replace_row a a' (tbl_animal db))
           (tbl_species db) = true →
  ∃ db',
    (AnimalORM.update_animal None (Some data_upd) (animal.id a) db).1 = Return ()
    ∧ (Animal.update_animal None (Some data_upd) (animal.id a) db).1 = Return ()
    ∧ AnimalORM.update_animal None (Some data_upd) (animal.id a) db
      = Animal.update_animal None (Some data_upd) (animal.id a) db
    ∧ (AnimalORM.update_animal None (Some data_upd) (animal.id a) db).2 = db'
    ∧ tbl_animal db' = replace_row a a' (tbl_animal db).
Proof.
  intros Hpk Ha Hid Hcols Henf.
  destruct (head_order_Some (λ b, animal.id b = animal.id a) (clock db)
              (tbl_animal db) a Ha eq_refl) as (b & Hhead & Hb & Hbid).
  assert (b = a) as -> by by apply (pk_unique (tbl_animal db)).
  assert (animal_of_attrs (data_upd ∪ animal.attrs a) = Some a') as Hflush.
  { rewrite <- (animal_of_attrs_attrs a'). unfold animal_of_attrs.
    rewrite <- !Hcols; [done|rewrite animal_attrs_dom; set_solver..]. }
  destruct (write_animal_ok (tick db) a a') as (db' & Hw & Htbl); [done..|].
  assert (AnimalORM.update_animal None (Some data_upd) (animal.id a) db
          = (Return (), db')) as Horm.
  { unfold AnimalORM.update_animal, query_get, mbind at 1, M_bind.
    rewrite first_select_run, Hhead, map_fold_setattr, Hflush. done. }
  exists db'. rewrite Horm. repeat split; [|done..].
  unfold Animal.update_animal, query_get, mbind at 1, M_bind.
  rewrite first_select_run, Hhead, map_fold_setattr, Hflush. by rewrite Hw.
Qed.

End update.

(** The statement sent for [{'id': 1, 'description': None}]. *)
Example dao_update_animal_none_sql :
  AnimalsDAO.update_sql [("description", @str test_backend VNone)]
                        (@str test_backend (VInt 1))
  = "UPDATE animal SET description='None' WHERE id=1".
Proof. reflexivity. Qed.

Lemma dao_update_animal_none_witness :
  ∃ db',
    @AnimalsDAO.update_animal test_backend
      (Some (<["id" := VInt 1]> (<["description" := VNone]> ∅))) None None shop
    = (Return (), db')
    ∧ tbl_animal db'
      = replace_row rex (with_description rex (Some "None")) (tbl_animal shop)
    ∧ with_description rex (Some "None") ∈ tbl_animal db'.
Proof.
  apply (@dao_update_animal_none test_backend shop rex);
    [compute_done..|reflexivity].
Defined.

(** * More of the code *)

(** ** Rows and their keys *)

Lemma key_unique {A K} `{EqDecision A} (f : A → K) (l : list A) (x y : A) :
  NoDup (f <$> l) → x ∈ l → y ∈ l → f x = f y → x = y.
Proof.
  intros Hnd Hx Hy Hf. destruct (decide (x = y)) as [|Hne]; [done|].
  by destruct (shared_key_dup f l x y).
Qed.

Lemma filter_none {A} (P : A → Prop) `{∀ x, Decision (P x)} (l : list A) :
  (∀ x, x ∈ l → ¬ P x) → filter P l = [].
Proof.
  induction l as [|x l IH]; intros Hno; [done|].
  rewrite filter_cons_False by (apply Hno; left).
  apply IH. intros y Hy. apply Hno. by right.
Qed.

(** With unique keys, the rows with the key of a stored row are that row
    alone. *)
Lemma filter_by_key {A K} `{EqDecision K} (f : A → K) (l : list A) (x : A) :
  NoDup (f <$> l) → x ∈ l → filter (λ y, f y = f x) l = [x].
Proof.
  induction l as [|z l IH]; intros Hnd Hx; [by apply not_elem_of_nil in Hx|].
  rewrite fmap_cons in Hnd. apply NoDup_cons in Hnd as [Hz Hnd].
  apply elem_of_cons in Hx as [->|Hx].
  - rewrite filter_cons_True by done. f_equal.
    apply filter_none. intros y Hy Hf. apply Hz. rewrite <- Hf.
    apply list_elem_of_fmap. eauto.
  - rewrite filter_cons_False; [by apply IH|].
    intros Hf. apply Hz. rewrite Hf. apply list_elem_of_fmap. eauto.
Qed.

Section keys.
Context `{Backend}.

Lemma row_order_singleton A n (x : A) : row_order A n [x] = [x].
Proof. apply Permutation_singleton_r, row_order_perm. Qed.

(** With unique keys, the lookup by key finds the stored row. *)
Lemma first_by_key {A} (tbl : DB → list A) (pk : A → Z) (db : DB) (x : A) :
  NoDup (pk <$> tbl db) → x ∈ tbl db →
  first (select tbl (λ r, pk r = pk x)) db = (Return (Some x), tick db).
Proof.
  intros Hnd Hx. rewrite first_select_run.
  by rewrite (filter_by_key pk), row_order_singleton.
Qed.

End keys.

(** ** Reading one record *)

Section reading.
Context `{Backend}.

(** X1.  With unique animal identifiers, the three [get_animal] agree on
    a stored animal: each returns the long mapping of that very row. *)
Theorem get_animal_agree (db : DB) (a : animal.row) :
  NoDup (animal.id <$> tbl_animal db) → a ∈ tbl_animal db →
  AnimalsDAO.get_animal (animal.id a) db
  = (Return (Some (animal.attrs a)), tick db)
  ∧ AnimalORM.get_animal (animal.id a) db
    = (Return (Some (animal.attrs a)), tick db)
  ∧ Animal.get_animal (animal.id a) db
    = (Return (Some (animal.attrs a)), tick db).
Proof.
  intros Hpk Ha.
  pose proof (first_by_key tbl_animal animal.id db a Hpk Ha) as Hfirst.
  repeat split.
  - unfold AnimalsDAO.get_animal, mbind, M_bind. by rewrite Hfirst.
  - unfold AnimalORM.get_animal, query_get, mbind, M_bind. by rewrite Hfirst.
  - unfold Animal.get_animal, query_get, mbind, M_bind. by rewrite Hfirst.
Qed.

(** X2.  With unique center identifiers and a stored center [c], the
    password check of the SQL and of the ORM data access for the
    identifier of [c] is the check of the mapped class on [c] itself:
    the verdict of werkzeug on the stored hash, AttributeError when no
    hash is stored. *)
Theorem check_password_agree (db : DB) (c : animal_center.row)
    (password : string) (user_id : option Z) :
  NoDup (animal_center.id <$> tbl_animal_center db) →
  c ∈ tbl_animal_center db →
  AnimalCentersDAO.check_password password (animal_center.id c) db
  = (AnimalCenter.check_password c password user_id, tick db)
  ∧ AnimalCenterORM.check_password password (animal_center.id c) db
    = (AnimalCenter.check_password c password user_id, tick db).
Proof.
  intros Hpk Hc.
  pose proof (first_by_key tbl_animal_center animal_center.id db c Hpk Hc)
    as Hfirst.
  split.
  - unfold AnimalCentersDAO.check_password, mbind, M_bind. by rewrite Hfirst.
  - unfold AnimalCenterORM.check_password, query_get, mbind, M_bind.
    by rewrite Hfirst.
Qed.

(** X3.  With unique center identifiers and a stored center [c],
    [get_center_inform] of the SQL data access returns the long mapping
    of [c] and the short mappings of the animals of that center, each
    once, in the order the engine chose; with no such animal the list is
    empty.  Two statements were executed and no table changed. *)
Theorem sql_center_detail (db : DB) (c : animal_center.row) :
  NoDup (animal_center.id <$> tbl_animal_center db) →
  c ∈ tbl_animal_center db →
  ∃ animals,
    AnimalCentersDAO.get_center_inform (animal_center.id c) db
    = (Return (Some (center_long c, animals)), tick (tick db))
    ∧ animals ≡ₚ animal_short <$> animals_of_center db (animal_center.id c)
    ∧ (animals_of_center db (animal_center.id c) = [] → animals = []).
Proof.
  intros Hpk Hc.
  pose proof (first_by_key tbl_animal_center animal_center.id db c Hpk Hc)
    as Hfirst.
  eexists. split; [|split].
  - unfold AnimalCentersDAO.get_center_inform, mbind, M_bind.
    rewrite Hfirst. unfold select, execute_query, lift. simpl.
    rewrite (mapM_Return _ animal_short) by done. reflexivity.
  - unfold animals_of_center. simpl. by rewrite row_order_perm.
  - unfold animals_of_center. simpl. intros ->. by rewrite row_order_nil.
Qed.

(** X4.  With unique species identifiers and a stored species [s],
    [get_species_inform] returns the long mapping of [s] and its
    animals, each once, in the order the engine chose: in the short form
    from the SQL and the ORM data access, in the long form from the
    mapped class.  A species without animals gives the empty list, not
    [None]. *)
Theorem species_detail (db : DB) (s : species.row) :
  NoDup (species.id <$> tbl_species db) → s ∈ tbl_species db →
  (∃ rows, rows ≡ₚ animals_of_species db (species.id s)
     ∧ SpeciesDAO.get_species_inform (species.id s) db
       = (Return (Some (species_long s, animal_short <$> rows)),
          tick (tick db)))
  ∧ (∃ rows, rows ≡ₚ animals_of_species db (species.id s)
       ∧ SpeciesORM.get_species_inform (species.id s) db
         = (Return (Some (species_long s, animal_short <$> rows)),
            tick (tick db)))
  ∧ (∃ rows, rows ≡ₚ animals_of_species db (species.id s)
       ∧ Species.get_species_inform (species.id s) db
         = (Return (Some (species_long s, animal.attrs <$> rows)),
            tick (tick db)))
  ∧ (animals_of_species db (species.id s) = [] →
     (SpeciesDAO.get_species_inform (species.id s) db).1
     = Return (Some (species_long s, []))).
Proof.
  intros Hpk Hs.
  pose proof (first_by_key tbl_species species.id db s Hpk Hs) as Hfirst.
  assert (SpeciesDAO.get_species_inform (species.id s) db
          = (Return (Some (species_long s,
               animal_short <$> row_order _ (clock (tick db))
                                  (animals_of_species db (species.id s)))),
             tick (tick db))) as Hdao.
  { unfold SpeciesDAO.get_species_inform, mbind, M_bind.
    rewrite Hfirst. unfold select, execute_query, lift. simpl.
    rewrite (mapM_Return _ animal_short) by done. reflexivity. }
  split; [|split; [|split]].
  - eexists. split; [apply row_order_perm|]. apply Hdao.
  - eexists. split; [apply row_order_perm|].
    unfold SpeciesORM.get_species_inform, query_get, mbind, M_bind.
    rewrite Hfirst. unfold select, execute_query, lift. simpl.
    rewrite (mapM_Return _ animal_short) by done. reflexivity.
  - eexists. split; [apply row_order_perm|].
    unfold Species.get_species_inform, query_get, mbind, M_bind.
    rewrite Hfirst. unfold select, execute_query, lift. simpl.
    rewrite (mapM_Return _ animal.attrs) by done. reflexivity.
  - intros Hnone. rewrite Hdao, Hnone. simpl. by rewrite row_order_nil.
Qed.

End reading.

(** ** Listing the centers, and the lookup by login *)

Section centers.
Context `{Backend}.

(** X5.  Each of the three [get_centers] returns the short mappings
    [{id, login}] of all the stored centers, each once, in the order the
    engine chose.  None of them raises. *)
Theorem get_centers_all (db : DB) :
  (∃ centers, centers ≡ₚ center_short <$> tbl_animal_center db
     ∧ AnimalCentersDAO.get_centers db = (Return centers, tick db))
  ∧ (∃ centers, centers ≡ₚ center_short <$> tbl_animal_center db
       ∧ AnimalCenterORM.get_centers db = (Return centers, tick db))
  ∧ (∃ centers, centers ≡ₚ center_short <$> tbl_animal_center db
       ∧ AnimalCenter.get_centers db = (Return centers, tick db)).
Proof.
  assert (center_short <$> row_order _ (clock db)
                             (filter (λ _, True) (tbl_animal_center db))
          ≡ₚ center_short <$> tbl_animal_center db) as Hperm
    by by rewrite row_order_perm, filter_keeps_all.
  repeat split; eexists; (split; [exact Hperm|]).
  - unfold AnimalCentersDAO.get_centers, mbind, M_bind, select, execute_query, lift.
    by rewrite (mapM_Return _ center_short).
  - unfold AnimalCenterORM.get_centers, mbind, M_bind, select, execute_query, lift.
    by rewrite (mapM_Return _ center_short).
  - unfold AnimalCenter.get_centers, mbind, M_bind, select, execute_query, lift.
    by rewrite (mapM_Return _ center_short).
Qed.

(** X6.  For a login that some stored center has, the lookup by login
    returns a stored center with that login: the instance itself from
    the ORM data access and from the mapped class, its long mapping from
    the SQL data access (for a login without a quote). *)
Theorem get_center_by_login_present (db : DB) (user_login : string) :
  Some user_login ∈ animal_center.login <$> tbl_animal_center db →
  (∃ c, c ∈ tbl_animal_center db ∧ animal_center.login c = Some user_login
      ∧ AnimalCenterORM.get_center_by_login user_login db
        = (Return (Some c), tick db))
  ∧ (∃ c, c ∈ tbl_animal_center db ∧ animal_center.login c = Some user_login
        ∧ AnimalCenter.get_center_by_login user_login db
          = (Return (Some c), tick db))
  ∧ (has_quote user_login = false →
     ∃ c, c ∈ tbl_animal_center db ∧ animal_center.login c = Some user_login
        ∧ AnimalCentersDAO.get_center_by_login user_login db
          = (Return (Some (center_long c)), tick db)).
Proof.
  intros (c0 & Hlogin & Hc0)%list_elem_of_fmap.
  destruct (head_order_Some (λ c, animal_center.login c = Some user_login)
              (clock db) (tbl_animal_center db) c0 Hc0 (eq_sym Hlogin))
    as (c & Hhead & Hc & Hl).
  split; [|split; [|intros Hq]]; exists c; (split; [done|split; [done|]]).
  - unfold AnimalCenterORM.get_center_by_login. by rewrite first_select_run, Hhead.
  - unfold AnimalCenter.get_center_by_login. by rewrite first_select_run, Hhead.
  - unfold AnimalCentersDAO.get_center_by_login, mbind, M_bind.
    rewrite Hq, first_select_run, Hhead. reflexivity.
Qed.

End centers.

(** ** Deleting a stored animal *)

Section deleting.
Context `{Backend}.

Lemma orm_delete_run (db : DB) (animal_id : Z) :
  animal_id ∈ animal.id <$> tbl_animal db →
  ∃ db', AnimalORM.delete_animal animal_id db = (Return (), db')
       ∧ Animal.delete_animal animal_id db = (Return (), db')
       ∧ deleted db animal_id db'.
Proof.
  intros (a0 & -> & Ha0)%list_elem_of_fmap.
  destruct (head_order_Some (λ a, animal.id a = animal.id a0) (clock db)
              (tbl_animal db) a0 Ha0 eq_refl) as (a & Hhead & Ha & Hid).
  eexists. split; [|split].
  - unfold AnimalORM.delete_animal, query_get, mbind, M_bind.
    rewrite first_select_run, Hhead. reflexivity.
  - unfold Animal.delete_animal, query_get, mbind, M_bind.
    rewrite first_select_run, Hhead. reflexivity.
  - unfold deleted. simpl. by rewrite Hid.
Qed.

Lemma deleted_absent (db db' : DB) (animal_id : Z) :
  deleted db animal_id db' → animal_id ∉ animal.id <$> tbl_animal db'.
Proof.
  intros [-> _] (a & -> & [Hne _]%list_elem_of_filter)%list_elem_of_fmap.
  done.
Qed.

(** X7.  For a stored identifier the three [delete_animal] return
    normally and have the same effect: the rows with that identifier are
    gone, every other animal row and the two other tables are as
    before. *)
Theorem delete_animal_stored (db : DB) (animal_id : Z) :
  animal_id ∈ animal.id <$> tbl_animal db →
  (∃ db', AnimalsDAO.delete_animal animal_id db = (Return (), db')
        ∧ deleted db animal_id db')
  ∧ (∃ db', AnimalORM.delete_animal animal_id db = (Return (), db')
          ∧ deleted db animal_id db')
  ∧ (∃ db', Animal.delete_animal animal_id db = (Return (), db')
          ∧ deleted db animal_id db')
  ∧ ∀ db', deleted db animal_id db' →
      (animal_id ∉ animal.id <$> tbl_animal db')
      ∧ ∀ b, animal.id b ≠ animal_id →
             (b ∈ tbl_animal db' ↔ b ∈ tbl_animal db).
Proof.
  intros Hin. destruct (orm_delete_run db animal_id Hin) as (db' & Ho & He & Hd).
  split; [|split; [|split]].
  - eexists. split; [reflexivity|]. by unfold deleted.
  - by exists db'.
  - by exists db'.
  - intros db1 Hd1. split; [by apply (deleted_absent db)|].
    intros b Hb. destruct Hd1 as [-> _]. rewrite list_elem_of_filter. tauto.
Qed.

(** X8.  After a [delete_animal] through the ORM data access the
    identifier is gone: [get_animal] of the two data-access classes
    return [None], a second delete through SQL changes nothing, and a
    second delete through the ORM raises UnmappedInstanceError. *)
Theorem delete_animal_again (db : DB) (animal_id : Z) :
  animal_id ∈ animal.id <$> tbl_animal db →
  ∃ db', AnimalORM.delete_animal animal_id db = (Return (), db')
    ∧ (AnimalsDAO.get_animal animal_id db').1 = Return None
    ∧ (AnimalORM.get_animal animal_id db').1 = Return None
    ∧ (AnimalORM.delete_animal animal_id db').1 = Raise UnmappedInstanceError
    ∧ tbl_animal (AnimalsDAO.delete_animal animal_id db').2 = tbl_animal db'.
Proof.
  intros Hin. destruct (orm_delete_run db animal_id Hin) as (db' & Ho & _ & Hd).
  pose proof (deleted_absent db db' animal_id Hd) as Hgone.
  pose proof (absent_no_row db' animal_id Hgone) as Hrows.
  exists db'. split; [done|].
  destruct (get_animal_absent db' animal_id Hgone) as [Hg1 Hg2].
  split; [done|split; [done|split]].
  - unfold AnimalORM.delete_animal, query_get, mbind, M_bind.
    rewrite first_select_run. by rewrite (head_order_None _ _ _ Hrows).
  - simpl. by apply filter_keeps_all.
Qed.

End deleting.

(** ** The species listing, row by row *)

Lemma mapM_Return_on {A B} (f : A → outcome B) (g : A → B) (l : list A) :
  (∀ x, x ∈ l → f x = Return (g x)) → mapM f l = Return (g <$> l).
Proof.
  induction l as [|x l IH]; intros Hf; [done|].
  simpl. rewrite Hf by left. simpl. rewrite IH; [done|].
  intros y Hy. apply Hf. by right.
Qed.

(** With unique keys, GROUP BY makes one group of each row. *)
Lemma group_by_unique {A K} `{EqDecision K} (key : A → K) (l : list A) :
  NoDup (key <$> l) → group_by key l = (λ x, (key x, [x])) <$> l.
Proof.
  intros Hnd. unfold group_by. rewrite (remove_dups_NoDup _ Hnd).
  rewrite <- list_fmap_compose. apply Forall_fmap_ext, Forall_forall.
  intros x Hx. simpl. by rewrite (filter_by_key key).
Qed.

(** The count of a group of one species. *)
Lemma count_animal_names_one (db : DB) (s : species.row) :
  count_animal_names (tbl_animal db) [s]
  = Z.of_nat (length (filter (λ a, is_Some (animal.name a))
                             (animals_of_species db (species.id s)))).
Proof.
  unfold count_animal_names, animals_of_species. f_equal.
  rewrite list_filter_filter. simpl. rewrite app_nil_r.
  induction (tbl_animal db) as [|a l IH]; [done|].
  rewrite bind_cons. simpl. rewrite !filter_cons. simpl.
  destruct (decide (animal.species_id a = Some (species.id s)
                    ∧ is_Some (animal.name a))) as [Hd|Hd].
  - rewrite decide_True by tauto. simpl. by rewrite IH.
  - rewrite decide_False by tauto. done.
Qed.

(** The count of a group is the sum of the counts of its species. *)
Lemma count_animal_names_sum (db : DB) (g : list species.row) :
  count_animal_names (tbl_animal db) g
  = Z.of_nat (sum_list_with
      (λ s, length (filter (λ a, is_Some (animal.name a))
                           (animals_of_species db (species.id s)))) g).
Proof.
  induction g as [|s g IH]; [done|].
  assert (count_animal_names (tbl_animal db) (s :: g)
          = count_animal_names (tbl_animal db) [s]
            + count_animal_names (tbl_animal db) g) as ->.
  { unfold count_animal_names.
    rewrite <- Nat2Z.inj_add, <- length_app, <- filter_app.
    do 2 f_equal. rewrite !bind_cons. simpl. by rewrite app_nil_r. }
  rewrite IH, count_animal_names_one. simpl. lia.
Qed.

Section species_rows.
Context `{Backend}.

(** In every state the SQL listing has one row for each distinct species
    name: the name, and the count over all the species of that name. *)
Lemma dao_get_species_names (db : DB) :
  ∃ l, SpeciesDAO.get_species db = (Return l, tick db)
     ∧ l ≡ₚ name_entry db <$> remove_dups (species.name <$> tbl_species db).
Proof.
  unfold SpeciesDAO.get_species, mbind, M_bind, execute_query, lift, group_by.
  rewrite <- !list_fmap_compose.
  eexists. split.
  - rewrite (mapM_Return_on _
      (λ r, default ∅ (match SpeciesDAO.deserialize (Some r) false with
                       | Return d => Some d | Raise _ => None end))).
    + reflexivity.
    + intros r (n & -> & _)%row_order_elem%list_elem_of_fmap. reflexivity.
  - rewrite row_order_perm, <- list_fmap_compose.
    match goal with |- ?l1 ≡ₚ ?l2 => replace l1 with l2; [done|] end.
    apply Forall_fmap_ext, Forall_forall. intros n _. simpl.
    unfold name_entry. by rewrite count_animal_names_sum.
Qed.

Lemma orm_get_species_run (db : DB) :
  NoDup (species.id <$> tbl_species db) →
  ∃ l, SpeciesORM.get_species db = (Return l, tick db)
     ∧ Species.get_species db = (Return l, tick db)
     ∧ l ≡ₚ species_entry db <$> tbl_species db.
Proof.
  intros Hpk. eexists. split; [reflexivity|]. split; [reflexivity|].
  simpl. rewrite row_order_perm, (group_by_unique species.id) by done.
  rewrite <- !list_fmap_compose.
  match goal with |- ?l1 ≡ₚ ?l2 => replace l1 with l2; [done|] end.
  apply Forall_fmap_ext, Forall_forall. intros s _. simpl.
  unfold species_entry. by rewrite count_animal_names_one.
Qed.

Lemma dao_get_species_run (db : DB) :
  NoDup (species.name <$> tbl_species db) →
  ∃ l, SpeciesDAO.get_species db = (Return l, tick db)
     ∧ l ≡ₚ species_entry db <$> tbl_species db.
Proof.
  intros Hname.
  unfold SpeciesDAO.get_species, mbind, M_bind, execute_query, lift.
  rewrite (group_by_unique species.name) by done.
  rewrite <- !list_fmap_compose.
  eexists. split.
  - rewrite (mapM_Return_on _
      (λ r, default ∅ (match SpeciesDAO.deserialize (Some r) false with
                       | Return d => Some d | Raise _ => None end))).
    + reflexivity.
    + intros r (s & -> & _)%row_order_elem%list_elem_of_fmap. reflexivity.
  - rewrite row_order_perm, <- list_fmap_compose.
    match goal with |- ?l1 ≡ₚ ?l2 => replace l1 with l2; [done|] end.
    apply Forall_fmap_ext, Forall_forall. intros s _. simpl.
    unfold species_entry. by rewrite count_animal_names_one.
Qed.

(** C6.  The SQL listing groups by [species.name], the ORM listing by
    [Species.id].  In every state the SQL listing has one row for every
    distinct name: the name and the number of animals with a name of
    all the species of that name together.  With the identifiers unique
    (they are the primary key) the ORM listing has one row for every
    species: its name and the number of its animals that have a name.
    So when two species rows with different identifiers have the same
    name, the SQL listing merges them into one row: it is shorter, and
    the two results differ, also up to the order of the rows. *)
Theorem species_listings_differ (db : DB) :
  ∃ l_sql l_orm,
    SpeciesDAO.get_species db = (Return l_sql, tick db)
    ∧ SpeciesORM.get_species db = (Return l_orm, tick db)
    ∧ l_sql ≡ₚ name_entry db <$> remove_dups (species.name <$> tbl_species db)
    ∧ length l_sql = length (remove_dups (species.name <$> tbl_species db))
    ∧ (NoDup (species.id <$> tbl_species db) →
       l_orm ≡ₚ species_entry db <$> tbl_species db
       ∧ length l_orm = length (tbl_species db)
       ∧ ∀ s1 s2, s1 ∈ tbl_species db → s2 ∈ tbl_species db →
           species.id s1 ≠ species.id s2 → species.name s1 = species.name s2 →
           (length l_sql < length l_orm)%nat
           ∧ l_sql ≠ l_orm
           ∧ ¬ l_sql ≡ₚ l_orm).
Proof.
  destruct (dao_get_species_names db) as (l_sql & Hsql & Hp_sql).
  destruct (orm_get_species_rows db) as (l_orm & Horm & _).
  assert (length l_sql = length (remove_dups (species.name <$> tbl_species db)))
    as Hlen_sql by by rewrite Hp_sql, length_fmap.
  exists l_sql, l_orm. do 4 (split; [done|]). intros Hpk.
  destruct (orm_get_species_run db Hpk) as (l & Hrun & _ & Hp_orm).
  rewrite Horm in Hrun. injection Hrun as <-.
  assert (length l_orm = length (tbl_species db)) as Hlen_orm
    by by rewrite Hp_orm, length_fmap.
  do 2 (split; [done|]). intros s1 s2 Hs1 Hs2 Hid Hname.
  assert (length l_sql < length l_orm)%nat as Hlt.
  { rewrite Hlen_sql, Hlen_orm.
    rewrite <- (length_fmap species.name (tbl_species db)).
    apply remove_dups_shorter.
    apply (shared_key_dup species.name _ s1 s2); try done.
    congruence. }
  split; [done|]. split.
  - intros ->. lia.
  - intros Hperm. apply Permutation_length in Hperm. lia.
Qed.

(** X9.  With unique species identifiers, the listing of the ORM data
    access and of the mapped class has one row for every stored
    species, a species without animals included: its name and the number
    of its animals that have a name (an animal whose name is NULL is not
    counted). *)
Theorem orm_species_listing (db : DB) :
  NoDup (species.id <$> tbl_species db) →
  (∃ l, SpeciesORM.get_species db = (Return l, tick db)
      ∧ l ≡ₚ species_entry db <$> tbl_species db
      ∧ ∀ s, s ∈ tbl_species db → species_entry db s ∈ l)
  ∧ (∃ l, Species.get_species db = (Return l, tick db)
        ∧ l ≡ₚ species_entry db <$> tbl_species db
        ∧ ∀ s, s ∈ tbl_species db → species_entry db s ∈ l).
Proof.
  intros Hpk. destruct (orm_get_species_run db Hpk) as (l & Ho & He & Hl).
  assert (∀ s, s ∈ tbl_species db → species_entry db s ∈ l) as Hall.
  { intros s Hs. rewrite Hl. apply list_elem_of_fmap. eauto. }
  split; by exists l.
Qed.

(** X10.  When the species names are distinct as well as the
    identifiers, grouping by name and grouping by identifier make the
    same groups: the SQL listing and the ORM listing have the same rows,
    up to order. *)
Theorem species_listings_agree (db : DB) :
  NoDup (species.id <$> tbl_species db) →
  NoDup (species.name <$> tbl_species db) →
  ∃ l_sql l_orm,
    SpeciesDAO.get_species db = (Return l_sql, tick db)
    ∧ SpeciesORM.get_species db = (Return l_orm, tick db)
    ∧ l_sql ≡ₚ l_orm.
Proof.
  intros Hpk Hname.
  destruct (orm_get_species_run db Hpk) as (l_orm & Ho & _ & Hlo).
  destruct (dao_get_species_run db Hname) as (l_sql & Hs & Hls).
  exists l_sql, l_orm. split; [done|split; [done|]]. by rewrite Hls, Hlo.
Qed.

End species_rows.

(** ** Updating: the frame, seen through [get_animal] *)

Lemma replace_row_ids (l : list animal.row) (a a' : animal.row) :
  animal.id a' = animal.id a →
  animal.id <$> replace_row a a' l = animal.id <$> l.
Proof.
  intros Hid. unfold replace_row. rewrite <- list_fmap_compose.
  apply Forall_fmap_ext, Forall_forall. intros b _. simpl.
  case_decide; congruence.
Qed.

Lemma replace_row_new (l : list animal.row) (a a' : animal.row) :
  a ∈ l → a' ∈ replace_row a a' l.
Proof.
  intros Ha. apply list_elem_of_fmap. exists a. by rewrite decide_True.
Qed.

Lemma replace_row_keys (l : list animal.row) (a a' : animal.row) :
  NoDup (animal.id <$> l) →
  animal.id a' ∉ animal.id <$> filter (λ b, animal.id b ≠ animal.id a) l →
  NoDup (animal.id <$> replace_row a a' l).
Proof.
  intros Hnd Hnew. unfold replace_row. rewrite <- list_fmap_compose.
  apply NoDup_fmap_2_strong; [|by apply NoDup_fmap_1 in Hnd].
  assert (∀ b, b ∈ l → animal.id b ≠ animal.id a → animal.id a' ≠ animal.id b)
    as Hfresh.
  { intros b Hb Hne Heq. apply Hnew. rewrite Heq.
    apply list_elem_of_fmap. exists b. split; [done|].
    by apply list_elem_of_filter. }
  intros x y Hx Hy. simpl. repeat case_decide; intros Heq.
  - apply (key_unique animal.id l); [done..|congruence].
  - by destruct (Hfresh y).
  - by destruct (Hfresh x).
  - by apply (key_unique animal.id l).
Qed.

Section update_frame.
Context `{Backend}.

(** What a write leaves alone, and the key it keeps unique. *)
Lemma write_animal_state (db : DB) (a a' : animal.row) :
  tbl_animal_center (write_animal a a' db).2 = tbl_animal_center db
  ∧ tbl_species (write_animal a a' db).2 = tbl_species db
  ∧ (animal_keys_unique db → animal_keys_unique (write_animal a a' db).2).
Proof.
  unfold write_animal, animal_keys_unique.
  destruct (decide (a' = a)); [done|].
  destruct (decide (animal.id a' ∈ _)) as [|Hnew]; [done|].
  destruct (enforced _ _ _); [|done].
  simpl. repeat split. intros Hpk. by apply replace_row_keys.
Qed.

Lemma session_delete_state (db : DB) (x : option animal.row) :
  tbl_animal_center (session_delete x db).2 = tbl_animal_center db
  ∧ tbl_species (session_delete x db).2 = tbl_species db
  ∧ (animal_keys_unique db → animal_keys_unique (session_delete x db).2).
Proof.
  unfold animal_keys_unique. destruct x as [a|]; [|done].
  simpl. repeat split. intros Hpk.
  eapply sublist_NoDup; [exact Hpk|apply fmap_sublist, sublist_filter].
Qed.

(** X11.  The loop of [setattr] in [AnimalORM.update_animal] and in
    [Animal.update_animal]: when the key is not among the fields and the
    engine accepts the new row, the update returns, and afterwards
    [get_animal] gives, for the updated animal, the supplied values in
    the named columns and the old values in the others, and for every
    other stored animal what it gave before.  The argument [animal] is
    not used. *)
Theorem update_then_get (db : DB) (a a' : animal.row)
    (animal : option dict) (data_upd : dict) :
  animal_keys_unique db → a ∈ tbl_animal db →
  updated a data_upd a' →
  enforced (tbl_animal_center db) (replace_row a a' (tbl_animal db))
           (tbl_species db) = true →
  ∃ db',
    AnimalORM.update_animal animal (Some data_upd) (animal.id a) db
    = (Return (), db')
    ∧ Animal.update_animal animal (Some data_upd) (animal.id a) db
      = (Return (), db')
    ∧ (AnimalORM.get_animal (animal.id a) db').1
      = Return (Some (animal.attrs a'))
    ∧ (∀ b, b ∈ tbl_animal db → animal.id b ≠ animal.id a →
            (AnimalORM.get_animal (animal.id b) db').1
            = Return (Some (animal.attrs b))).
Proof.
  intros Hpk Ha [Hid Hcols] Henf.
  destruct (orm_update_animal_frame db a a' data_upd)
    as (db' & Hr & _ & Heq & Hdb & Htbl); try done.
  { intros k Hk. rewrite animal_attrs_dom in Hk.
    apply elem_of_list_to_set in Hk. rewrite Forall_forall in Hcols.
    by apply Hcols. }
  assert (AnimalORM.update_animal animal (Some data_upd) (animal.id a) db
          = (Return (), db')) as Horm.
  { change (AnimalORM.update_animal animal) with (AnimalORM.update_animal None).
    rewrite <- Hdb, <- Hr. by destruct (AnimalORM.update_animal _ _ _ _). }
  assert (NoDup (animal.id <$> tbl_animal db')) as Hpk'
    by by rewrite Htbl, replace_row_ids.
  exists db'. split; [done|]. split.
  { change (Animal.update_animal animal) with (Animal.update_animal None).
    rewrite <- Heq. apply Horm. }
  split.
  - unfold AnimalORM.get_animal, query_get, mbind, M_bind.
    rewrite <- Hid, (first_by_key tbl_animal animal.id db' a'); [done..|].
    rewrite Htbl. by apply replace_row_new.
  - intros b Hb Hne.
    unfold AnimalORM.get_animal, query_get, mbind, M_bind.
    rewrite (first_by_key tbl_animal animal.id db' b); [done..|].
    rewrite Htbl. by apply replace_row_others.
Qed.

End update_frame.

(** ** What updates and deletes keep *)

Section invariants.
Context `{Backend}.

Lemma animal_step_refl (db : DB) : animal_step db db.
Proof. by unfold animal_step. Qed.

Lemma animal_step_tick (db : DB) : animal_step db (tick db).
Proof. by unfold animal_step. Qed.

Lemma animal_step_write (db : DB) (a a' : animal.row) :
  animal_step db (write_animal a a' (tick db)).2.
Proof. apply (write_animal_state (tick db)). Qed.

Lemma animal_step_delete (db : DB) (x : option animal.row) :
  animal_step db (session_delete x (tick db)).2.
Proof. apply (session_delete_state (tick db)). Qed.

Lemma orm_delete_step (db : DB) (animal_id : Z) :
  animal_step db (AnimalORM.delete_animal animal_id db).2
  ∧ animal_step db (Animal.delete_animal animal_id db).2.
Proof.
  unfold AnimalORM.delete_animal, Animal.delete_animal, query_get, mbind, M_bind.
  rewrite first_select_run. split; apply animal_step_delete.
Qed.

Lemma orm_update_step (db : DB) (animal data_upd : option dict) (animal_id : Z) :
  animal_step db (AnimalORM.update_animal animal data_upd animal_id db).2
  ∧ animal_step db (Animal.update_animal animal data_upd animal_id db).2.
Proof.
  split.
  all: unfold AnimalORM.update_animal, Animal.update_animal, query_get,
         mbind at 1, M_bind.
  all: rewrite first_select_run.
  all: destruct data_upd as [data_upd|]; [|apply animal_step_tick].
  all: destruct (head _) as [a|].
  all: try (destruct (animal_of_attrs _) as [a'|];
            [apply animal_step_write|apply animal_step_tick]).
  all: destruct (decide (data_upd = ∅)); apply animal_step_tick.
Qed.

(** X13.  What [AnimalsDAO.update_animal] does before any statement is
    sent: without a mapping it fails on [None.pop] (AttributeError), with
    a mapping that has no key ['id'] on [pop] (KeyError), and with a
    mapping of the key alone the SET clause is empty and the statement
    is refused; the database is not touched.  [data_upd] and [animal_id]
    never matter. *)
Theorem dao_update_animal_errors (db : DB) (animal : dict) (v : value)
    (data_upd data_upd' : option dict) (animal_id animal_id' : option Z) :
  AnimalsDAO.update_animal None data_upd animal_id db
  = (Raise AttributeError, db)
  ∧ (animal !! "id" = None →
     AnimalsDAO.update_animal (Some animal) data_upd animal_id db
     = (Raise KeyError, db))
  ∧ (animal !! "id" = Some v → delete "id" animal = ∅ →
     AnimalsDAO.update_animal (Some animal) data_upd animal_id db
     = (Raise SQLAlchemyError, db))
  ∧ AnimalsDAO.update_animal (Some animal) data_upd animal_id db
    = AnimalsDAO.update_animal (Some animal) data_upd' animal_id' db.
Proof.
  repeat split.
  - intros Hid. unfold AnimalsDAO.update_animal. by rewrite Hid.
  - intros Hid Hempty. unfold AnimalsDAO.update_animal.
    by rewrite Hid, Hempty, map_to_list_empty.
Qed.

End invariants.

(** ** Where the update statement and the loop of [setattr] agree *)

Lemma uint_no_quote (d : Decimal.uint) :
  Ascii.ascii_of_nat 39 ∉ String.list_ascii_of_string (NilEmpty.string_of_uint d).
Proof.
  induction d; simpl; try apply not_elem_of_nil.
  all: apply not_elem_of_cons; split; [discriminate|done].
Qed.

(** The decimal form of an int has no quote in it. *)
Lemma int_str_no_quote (n : Z) : has_quote (int_str n) = false.
Proof.
  unfold has_quote, int_str. apply bool_decide_eq_false.
  assert (∀ d, Ascii.ascii_of_nat 39
               ∉ String.list_ascii_of_string (NilZero.string_of_uint d)) as Hu.
  { intros d. destruct d; try apply uint_no_quote.
    simpl. apply not_elem_of_cons. split; [discriminate|apply not_elem_of_nil]. }
  destruct (Z.to_int n) as [d|d]; simpl; [apply Hu|].
  apply not_elem_of_cons. split; [discriminate|apply Hu].
Qed.

(** The assignments, applied in any order to distinct keys, put the
    mapping on top of the row. *)
Lemma foldl_insert_union (l : list (string * value)) (d : dict) :
  NoDup l.*1 →
  foldl (λ acc kv, <[kv.1 := kv.2]> acc) d l = list_to_map l ∪ d.
Proof.
  revert d. induction l as [|[k v] l IH]; intros d Hnd; simpl.
  - by rewrite (left_id_L ∅ (∪)).
  - apply NoDup_cons in Hnd as [Hk Hnd]. rewrite IH by done.
    rewrite <- insert_union_l. symmetry. apply insert_union_r.
    by apply not_elem_of_list_to_map_1.
Qed.

Section sql_update.
Context `{Backend}.

Lemma literal_value_safe (key : string) (v : value) :
  sql_safe key v → AnimalsDAO.literal_value key (str v) = Some v.
Proof.
  destruct v as [|n|f|s]; simpl; try done.
  - intros Hk. unfold AnimalsDAO.literal_value.
    rewrite bool_decide_eq_true_2 by by right.
    by rewrite int_literal_str.
  - intros [Hk _]. unfold AnimalsDAO.literal_value.
    rewrite bool_decide_eq_false_2.
    + by rewrite bool_decide_eq_true_2.
    + revert Hk. rewrite !elem_of_cons, elem_of_nil.
      intros [->|[->|[]]]; compute_done.
Qed.

Lemma str_safe_no_quote (key : string) (v : value) :
  sql_safe key v → has_quote (str v) = false.
Proof.
  destruct v as [|n|f|s]; simpl; try done.
  - intros _. apply int_str_no_quote.
  - by intros [_ ?].
Qed.

Lemma sql_safe_column (key : string) (v : value) :
  sql_safe key v → AnimalsDAO.column key = true.
Proof.
  destruct v as [|n|f|s]; simpl; try done.
  - rewrite !elem_of_cons, elem_of_nil. intros [-> | [-> | [-> | []]]]; reflexivity.
  - rewrite !elem_of_cons, elem_of_nil. intros [[-> | [-> | []]] _]; reflexivity.
Qed.

Lemma assign_safe (l : list (string * value)) (d : dict) :
  Forall (λ kv, sql_safe kv.1 kv.2) l →
  AnimalsDAO.assign ((λ kv, (kv.1, str kv.2)) <$> l) d
  = Some (foldl (λ acc kv, <[kv.1 := kv.2]> acc) d l)
  ∧ existsb (λ kv : string * string,
               has_quote kv.2 || negb (AnimalsDAO.column kv.1))
            ((λ kv, (kv.1, str kv.2)) <$> l) = false.
Proof.
  unfold AnimalsDAO.assign. intros Hl. revert d.
  induction Hl as [|[k v] l Hkv _ IH]; intros d; [done|].
  simpl in *. rewrite (literal_value_safe k v Hkv). simpl.
  rewrite (str_safe_no_quote k v Hkv), (sql_safe_column k v Hkv). simpl.
  apply IH.
Qed.

Lemma write_animal_tick (db : DB) (a a' : animal.row) :
  (write_animal a a' (tick db)).1 = (write_animal a a' db).1
  ∧ tbl_animal (write_animal a a' (tick db)).2
    = tbl_animal (write_animal a a' db).2.
Proof.
  unfold write_animal. simpl.
  destruct (decide (a' = a)); [done|].
  destruct (decide (animal.id a' ∈ _)); [done|].
  by destruct (enforced _ _ _).
Qed.

(** On the statement the code means, the update keeps the invariant. *)
Lemma dao_update_step (db : DB) (animal data_upd : option dict)
    (animal_id : option Z) :
  sql_update animal →
  animal_step db (AnimalsDAO.update_animal animal data_upd animal_id db).2.
Proof.
  unfold AnimalsDAO.update_animal.
  destruct animal as [animal|]; [|intros _; apply animal_step_refl].
  intros [Hid Hsafe].
  destruct (animal !! "id") as [[|n|f|s]|]; try done;
    try (by apply animal_step_refl).
  assert (Forall (λ kv, sql_safe kv.1 kv.2) (map_to_list (delete "id" animal)))
    as Hl.
  { apply Forall_forall. intros [k v] Hkv. apply (Hsafe k v).
    by apply elem_of_map_to_list. }
  destruct (assign_safe _ ∅ Hl) as [_ Hquote].
  unfold AnimalsDAO.execute_update.
  change (str (VInt n)) with (int_str n). rewrite int_literal_str, Hquote.
  destruct (_ <$> map_to_list _) as [|kv l]; [apply animal_step_refl|].
  destruct (list_find _ _) as [[i a]|].
  - destruct (_ ≫= animal_of_attrs) as [a'|]; [|apply animal_step_refl].
    apply write_animal_state.
  - destruct (AnimalsDAO.assign _ _); [apply animal_step_tick|apply animal_step_refl].
Qed.

(** X12.  Whether they return or raise, the three [delete_animal] and
    the three [update_animal] leave the tables of centers and of species
    as they were and keep the identifiers of the animals unique: the
    deletes for every identifier, the update statement of [AnimalsDAO]
    for a mapping that makes the statement the code means (an int key,
    ints and strings without a quote for the fields), the loop of
    [setattr] for fields of the type of their column. *)
Theorem animal_operations_keep (db : DB) (animal data_upd : option dict)
    (animal_id : Z) (animal_id' : option Z) :
  (animal_step db (AnimalsDAO.delete_animal animal_id db).2
   ∧ animal_step db (AnimalORM.delete_animal animal_id db).2
   ∧ animal_step db (Animal.delete_animal animal_id db).2)
  ∧ (sql_update animal →
     animal_step db (AnimalsDAO.update_animal animal data_upd animal_id' db).2)
  ∧ (typed_update data_upd →
     animal_step db (AnimalORM.update_animal animal data_upd animal_id db).2
     ∧ animal_step db (Animal.update_animal animal data_upd animal_id db).2).
Proof.
  split; [|split; [apply dao_update_step|intros _; apply orm_update_step]].
  split; [|apply orm_delete_step].
  unfold animal_step, animal_keys_unique. simpl. split; [done|split; [done|]].
  intros Hpk. eapply sublist_NoDup; [exact Hpk|apply fmap_sublist, sublist_filter].
Qed.

(** X14.  For a stored animal and a mapping whose values are ints for
    integer columns and strings without a quote for string columns (no
    [None], no float), the update statement of [AnimalsDAO] has the
    effect of the loop of [setattr] with the same fields: the same
    outcome and the same table of animals. *)
Theorem sql_update_as_setattr (db : DB) (a : animal.row) (animal : dict)
    (data_upd orm_animal : option dict) (animal_id : option Z) :
  animal_keys_unique db → a ∈ tbl_animal db →
  animal !! "id" = Some (VInt (animal.id a)) →
  delete "id" animal ≠ ∅ →
  map_Forall sql_safe (delete "id" animal) →
  (AnimalsDAO.update_animal (Some animal) data_upd animal_id db).1
  = (AnimalORM.update_animal orm_animal (Some (delete "id" animal))
       (animal.id a) db).1
  ∧ tbl_animal (AnimalsDAO.update_animal (Some animal) data_upd animal_id db).2
    = tbl_animal (AnimalORM.update_animal orm_animal
                    (Some (delete "id" animal)) (animal.id a) db).2.
Proof.
  intros Hpk Ha Hid Hne Hsafe.
  set (fields := delete "id" animal) in *.
  assert (Forall (λ kv, sql_safe kv.1 kv.2) (map_to_list fields)) as Hl.
  { apply Forall_forall. intros [k v] Hkv. apply (Hsafe k v).
    by apply elem_of_map_to_list. }
  destruct (assign_safe _ (animal.attrs a) Hl) as [Hassign Hquote].
  rewrite foldl_insert_union, list_to_map_to_list in Hassign
    by apply NoDup_fst_map_to_list.
  assert (AnimalORM.update_animal orm_animal (Some fields) (animal.id a) db
          = match animal_of_attrs (fields ∪ animal.attrs a) with
            | Some a' => write_animal a a' (tick db)
            | None => (Raise SQLAlchemyError, tick db)
            end) as ->.
  { unfold AnimalORM.update_animal, query_get, mbind at 1, M_bind.
    rewrite (first_by_key tbl_animal animal.id db a Hpk Ha), map_fold_setattr.
    by destruct (animal_of_attrs _). }
  assert (AnimalsDAO.update_animal (Some animal) data_upd animal_id db
          = match animal_of_attrs (fields ∪ animal.attrs a) with
            | Some a' => write_animal a a' db
            | None => (Raise SQLAlchemyError, db)
            end) as ->.
  { unfold AnimalsDAO.update_animal. rewrite Hid. fold fields.
    unfold AnimalsDAO.execute_update.
    change (str (VInt (animal.id a))) with (int_str (animal.id a)).
    rewrite int_literal_str, Hquote.
    destruct (find_by_key db a Hpk Ha) as [i ->]. rewrite Hassign.
    destruct (_ <$> map_to_list fields) as [|kv l] eqn:El; [|done].
    apply fmap_nil_inv, map_to_list_empty_iff in El. by destruct Hne. }
  destruct (animal_of_attrs _) as [a'|]; [|done].
  split; symmetry; apply write_animal_tick.
Qed.

End sql_update.

(** ** Adding an animal *)

Section adding.
Context `{Backend} `{Sequences}.

Lemma next_animal_id_fresh (db : DB) :
  next_animal_id db ∉ animal.id <$> tbl_animal db.
Proof. intros Hin%(next_id_above (clock db)). unfold next_animal_id in Hin. lia. Qed.

Lemma keys_unique_snoc (db : DB) (a : animal.row) :
  animal_keys_unique db → animal.id a = next_animal_id db →
  NoDup (animal.id <$> (tbl_animal db ++ [a])%list).
Proof.
  intros Hpk Hid. rewrite fmap_app. apply NoDup_app. split; [done|]. split.
  - intros i Hi [->|[]%elem_of_nil]%elem_of_cons.
    rewrite Hid in Hi. by apply next_animal_id_fresh in Hi.
  - apply NoDup_singleton.
Qed.

(** The instance built from [data] flushes to the row [a]. *)
Lemma animal_of_attrs_added (data : dict) (userid : Z) (a : animal.row) :
  added data userid (animal.id a) a →
  ∃ name description price species_id age,
    data !! "name" = Some name ∧ data !! "description" = Some description
    ∧ data !! "price" = Some price ∧ data !! "species_id" = Some species_id
    ∧ data !! "age" = Some age
    ∧ animal_of_attrs
        (<["id" := VInt (animal.id a)]>
         (<["name" := name]> (<["center_id" := VInt userid]>
          (<["description" := description]> (<["price" := price]>
          (<["species_id" := species_id]> (<["age" := age]> ∅)))))))
      = Some a.
Proof.
  intros (_ & Hc & Hf).
  apply Forall_cons in Hf as [Hn Hf]. apply Forall_cons in Hf as [Hd Hf].
  apply Forall_cons in Hf as [Hp Hf]. apply Forall_cons in Hf as [Hs Hf].
  apply Forall_cons in Hf as [Hg _].
  exists (py_str (animal.name a)), (py_str (animal.description a)),
    (py_float (animal.price a)), (py_int (animal.species_id a)),
    (py_int (animal.age a)).
  do 5 (split; [done|]).
  destruct a as [i c n d g s p]. simpl in Hc. subst c.
  destruct n, d, g, s, p; reflexivity.
Qed.

Lemma insert_added (db : DB) (obj : dict) (a : animal.row) :
  animal_of_attrs (<["id" := VInt (next_animal_id db)]> obj) = Some a →
  enforced (tbl_animal_center db) (tbl_animal db ++ [a])%list (tbl_species db)
  = true →
  insert_animal obj db = (Return a, with_animals (tbl_animal db ++ [a])%list db).
Proof.
  intros Hflush Henf. unfold insert_animal.
  fold (next_animal_id db). by rewrite Hflush, Henf.
Qed.

(** X15.  Round trip through the ORM and through the mapped class: for a
    mapping with the five fields, [add_animal] stores one new row under
    a fresh identifier, with the submitted fields and the center set to
    [userid], and returns its short mapping; [get_animal] of that
    identifier then returns the long mapping of the row, and the animals
    stored before are found as before. *)
Theorem add_animal_then_get (db : DB) (data : dict) (userid : Z) (a : animal.row) :
  animal_keys_unique db →
  added data userid (next_animal_id db) a →
  enforced (tbl_animal_center db) (tbl_animal db ++ [a])%list (tbl_species db)
  = true →
  ∃ db',
    AnimalORM_add_animal data userid db = (Return (animal_short a), db')
    ∧ Animal_add_animal data userid db = (Return (animal_short a), db')
    ∧ tbl_animal db' = (tbl_animal db ++ [a])%list
    ∧ (animal.id a ∉ animal.id <$> tbl_animal db)
    ∧ (AnimalORM.get_animal (animal.id a) db').1
      = Return (Some (animal.attrs a))
    ∧ (AnimalsDAO.get_animal (animal.id a) db').1
      = Return (Some (animal.attrs a))
    ∧ ∀ b, b ∈ tbl_animal db →
           (AnimalORM.get_animal (animal.id b) db').1
           = Return (Some (animal.attrs b)).
Proof.
  intros Hpk Hadd Henf. pose proof Hadd as (Hid & _).
  rewrite <- Hid in Hadd.
  destruct (animal_of_attrs_added data userid a Hadd)
    as (n & d & p & s & g & Hn & Hd & Hp & Hs & Hg & Hflush).
  rewrite Hid in Hflush.
  pose proof (insert_added db _ a Hflush Henf) as Hins.
  set (db' := with_animals (tbl_animal db ++ [a])%list db).
  assert (NoDup (animal.id <$> tbl_animal db')) as Hpk'
    by by apply keys_unique_snoc.
  assert (∀ b, b ∈ tbl_animal db' →
               (AnimalORM.get_animal (animal.id b) db').1
               = Return (Some (animal.attrs b))
               ∧ (AnimalsDAO.get_animal (animal.id b) db').1
                 = Return (Some (animal.attrs b))) as Hget.
  { intros b Hb. split.
    - unfold AnimalORM.get_animal, query_get, mbind, M_bind.
      by rewrite (first_by_key tbl_animal animal.id db' b).
    - unfold AnimalsDAO.get_animal, mbind, M_bind.
      by rewrite (first_by_key tbl_animal animal.id db' b). }
  exists db'. split; [|split; [|split; [done|split; [|split; [|split]]]]].
  - unfold AnimalORM_add_animal, getkey, mbind, M_bind, lift.
    by rewrite Hn, Hd, Hp, Hs, Hg, Hins.
  - unfold Animal_add_animal, getkey, mbind, M_bind, lift.
    by rewrite Hn, Hd, Hp, Hs, Hg, Hins.
  - rewrite Hid. apply next_animal_id_fresh.
  - apply Hget. simpl. apply elem_of_app. right. left.
  - apply Hget. simpl. apply elem_of_app. right. left.
  - intros b Hb. apply Hget. simpl. apply elem_of_app. by left.
Qed.

(** X16.  When one of the five keys is missing from [data], the three
    [add_animal] raise KeyError and nothing is stored. *)
Theorem add_animal_missing_key (db : DB) (data : dict) (userid : Z) (key : string) :
  key ∈ ["name"; "description"; "price"; "species_id"; "age"] →
  data !! key = None →
  AnimalsDAO_add_animal data userid db = (Raise KeyError, db)
  ∧ AnimalORM_add_animal data userid db = (Raise KeyError, db)
  ∧ Animal_add_animal data userid db = (Raise KeyError, db).
Proof.
  intros Hkey Hnone.
  unfold AnimalsDAO_add_animal, AnimalORM_add_animal, Animal_add_animal,
    getkey, mbind, M_bind, lift.
  destruct (data !! "name") eqn:En; [|done].
  destruct (data !! "description") eqn:Ed; [|done].
  destruct (data !! "price") eqn:Ep; [|done].
  destruct (data !! "species_id") eqn:Es; [|done].
  destruct (data !! "age") eqn:Eg; [|done].
  revert Hkey. rewrite !elem_of_cons, elem_of_nil.
  intros [->|[->|[->|[->|[->|[]]]]]]; congruence.
Qed.

Lemma animal_of_attrs_id (d : dict) (a : animal.row) :
  animal_of_attrs d = Some a → d !! "id" = Some (VInt (animal.id a)).
Proof.
  unfold animal_of_attrs. intros Hflush.
  destruct (d !! "id") as [[|n|f|s]|]; try done.
  simpl in Hflush. by simplify_option_eq.
Qed.

Lemma insert_animal_step (db : DB) (obj : dict) :
  animal_step db (insert_animal obj db).2.
Proof.
  unfold insert_animal.
  destruct (animal_of_attrs _) as [a|] eqn:Hflush; [|by unfold animal_step].
  destruct (enforced _ _ _); [|by unfold animal_step].
  unfold animal_step. simpl. repeat split. intros Hpk.
  apply keys_unique_snoc; [done|].
  apply animal_of_attrs_id in Hflush. rewrite lookup_insert_eq in Hflush.
  by injection Hflush as <-.
Qed.

Lemma select_last_new (db : DB) (l : list animal.row) (a : animal.row) :
  tbl_animal db = (l ++ [a])%list →
  (∀ b, b ∈ l → animal.id b < animal.id a) →
  first select_last_animal db = (Return (Some a), tick db).
Proof.
  intros Htbl Hmax.
  unfold first, select_last_animal, execute_query, mbind, M_bind. simpl.
  rewrite Htbl.
  assert (filter (λ x : animal.row,
                    Forall (λ b, (animal.id b ≤ animal.id x)%Z) (l ++ [a])%list)
                 (l ++ [a])%list = [a]) as ->; [|by rewrite row_order_singleton].
  rewrite filter_app, filter_none, filter_cons_True; [done| |].
  - apply Forall_app. split; [|by repeat constructor].
    apply Forall_forall. intros b Hb. apply Hmax in Hb. lia.
  - intros b Hb Hall. rewrite Forall_forall in Hall.
    assert (animal.id a ≤ animal.id b)%Z by (apply Hall, elem_of_app; right; left).
    apply Hmax in Hb. lia.
Qed.

(** When the pasted texts keep the INSERT the statement the code means. *)
Lemma bare_text_int (n : Z) : bare_text bare_int (int_str n) = true.
Proof.
  apply bool_decide_eq_true. left. unfold bare_int. by rewrite int_literal_str.
Qed.

Lemma bare_text_real (text : string) (f : spec_float) :
  real_literal text = Some f → bare_text bare_real text = true.
Proof.
  intros Hf. apply bool_decide_eq_true. left. unfold bare_real. by rewrite Hf.
Qed.

Lemma bare_text_None (literal : string → option value) :
  bare_text literal "None" = true.
Proof. apply bool_decide_eq_true. by right. Qed.

Lemma execute_insert_animal_meant
    (name center_id description price species_id age : string) :
  has_quote name = false → has_quote description = false →
  bare_text bare_int center_id = true → bare_text bare_real price = true →
  bare_text bare_int species_id = true → bare_text bare_int age = true →
  execute_insert_animal name center_id description price species_id age
  = insert_animal_values name center_id description price species_id age.
Proof.
  intros Hn Hd Hc Hp Hs Hg. unfold execute_insert_animal.
  by rewrite Hn, Hd, Hc, Hp, Hs, Hg.
Qed.

Lemma sql_field_quoted (key : string) (v : value) :
  key ∈ ["name"; "description"] → sql_field key v → has_quote (str v) = false.
Proof.
  rewrite !elem_of_cons, elem_of_nil.
  destruct v as [|n|f|s]; simpl; [done| | |tauto].
  - rewrite !elem_of_cons, elem_of_nil.
    intros [-> | [-> | []]] [? | [? | []]]; discriminate.
  - intros [-> | [-> | []]] [? _]; discriminate.
Qed.

Lemma sql_field_int (key : string) (v : value) :
  key ∈ ["species_id"; "age"] → sql_field key v →
  bare_text bare_int (str v) = true.
Proof.
  rewrite !elem_of_cons, elem_of_nil.
  destruct v as [|n|f|s]; simpl.
  - intros _ _. apply bare_text_None.
  - intros _ _. apply bare_text_int.
  - intros [-> | [-> | []]] [? _]; discriminate.
  - rewrite !elem_of_cons, elem_of_nil.
    intros [-> | [-> | []]] [[? | [? | []]] _]; discriminate.
Qed.

Lemma sql_field_real (v : value) :
  sql_field "price" v → bare_text bare_real (str v) = true.
Proof.
  destruct v as [|n|f|s]; simpl.
  - intros _. apply bare_text_None.
  - rewrite !elem_of_cons, elem_of_nil. intros [? | [? | []]]; discriminate.
  - intros [_ [g Hg]]. by apply (bare_text_real _ g).
  - rewrite !elem_of_cons, elem_of_nil. intros [[? | [? | []]] _]; discriminate.
Qed.

Lemma each_field_lookup (P : string → value → Prop) (data : dict)
    (key : string) (v : value) :
  each_field P data → key ∈ animal_fields → data !! key = Some v → P key v.
Proof.
  unfold each_field. rewrite Forall_forall. intros Hall Hkey Hv.
  specialize (Hall key Hkey). by rewrite Hv in Hall.
Qed.

(** For fields that are carried intact, the INSERT of [AnimalsDAO] is
    the statement the code means. *)
Lemma sql_fields_meant (data : dict) (userid : Z)
    (name description price species_id age : value) :
  data !! "name" = Some name → data !! "description" = Some description →
  data !! "price" = Some price → data !! "species_id" = Some species_id →
  data !! "age" = Some age →
  each_field sql_field data →
  execute_insert_animal (str name) (int_str userid) (str description)
                        (str price) (str species_id) (str age)
  = insert_animal_values (str name) (int_str userid) (str description)
                         (str price) (str species_id) (str age).
Proof.
  intros Hn Hd Hp Hs Hg Hall.
  pose proof (λ k v Hk, each_field_lookup sql_field data k v Hall Hk) as Hf.
  apply execute_insert_animal_meant.
  - apply (sql_field_quoted "name"); [compute_done|]. apply Hf; [compute_done|done].
  - apply (sql_field_quoted "description"); [compute_done|].
    apply Hf; [compute_done|done].
  - apply bare_text_int.
  - apply sql_field_real. apply Hf; [compute_done|done].
  - apply (sql_field_int "species_id"); [compute_done|].
    apply Hf; [compute_done|done].
  - apply (sql_field_int "age"); [compute_done|]. apply Hf; [compute_done|done].
Qed.

(** X17.  For a mapping that holds strings without a quote for the name
    and the description, ints for the species and the age, and a float
    that the engine reads back as Python printed it, [add_animal] of the
    SQL data access does what [add_animal] of the ORM data access does:
    the same outcome (the short mapping of the new row, which is the one
    with the greatest identifier) and the same table of animals. *)
Theorem sql_add_animal_as_orm (db : DB) (data : dict) (userid : Z)
    (name description : string) (price : spec_float) (species_id age : Z) :
  data !! "name" = Some (VStr name) → has_quote name = false →
  data !! "description" = Some (VStr description) →
  has_quote description = false →
  data !! "price" = Some (VFloat price) →
  real_literal (float_str price) = Some price →
  data !! "species_id" = Some (VInt species_id) →
  data !! "age" = Some (VInt age) →
  (AnimalsDAO_add_animal data userid db).1
  = (AnimalORM_add_animal data userid db).1
  ∧ tbl_animal (AnimalsDAO_add_animal data userid db).2
    = tbl_animal (AnimalORM_add_animal data userid db).2.
Proof.
  intros Hn Hqn Hd Hqd Hp Hrp Hs Hg.
  unfold AnimalsDAO_add_animal, AnimalORM_add_animal, getkey, mbind, M_bind, lift.
  rewrite Hn, Hd, Hp, Hs, Hg. simpl str.
  rewrite execute_insert_animal_meant
    by first [done | apply bare_text_int | by apply (bare_text_real _ price)].
  unfold insert_animal_values, quoted_value, bare_int, bare_real.
  rewrite Hqn, Hqd, Hrp, !int_literal_str. simpl fmap. cbv beta iota.
  set (a := animal.mk (next_animal_id db) (Some userid) (Some name)
              (Some description) (Some age) (Some species_id) (Some price)).
  match goal with |- context [insert_animal ?obj db] =>
    assert (insert_animal obj db
            = if enforced (tbl_animal_center db) (tbl_animal db ++ [a])%list
                          (tbl_species db)
              then (Return a, with_animals (tbl_animal db ++ [a])%list db)
              else (Raise SQLAlchemyError, db)) as -> by reflexivity
  end.
  destruct (enforced _ _ _); [|by split].
  erewrite select_last_new; [by split|reflexivity|].
  intros b Hb. simpl. apply (next_id_above (clock db)).
  apply list_elem_of_fmap. eauto.
Qed.

(** X18.  [add_animal] of the SQL data access pastes the price, the
    species and the age bare into the statement.  For fields that are
    carried intact otherwise (strings without a quote for the name and
    the description, ints, a float the engine can read, or [None]), when
    the price, the species or the age is [None] the text has the word
    None where a number is expected; the engine does not read it as one,
    the statement is refused and nothing is stored. *)
Theorem sql_add_animal_none (db : DB) (data : dict) (userid : Z)
    (name description price species_id age : value) :
  data !! "name" = Some name → data !! "description" = Some description →
  data !! "price" = Some price → data !! "species_id" = Some species_id →
  data !! "age" = Some age →
  each_field sql_field data →
  real_literal "None" = None →
  price = VNone ∨ species_id = VNone ∨ age = VNone →
  AnimalsDAO_add_animal data userid db = (Raise SQLAlchemyError, db).
Proof.
  intros Hn Hd Hp Hs Hg Hall Hreal Hnone.
  unfold AnimalsDAO_add_animal, getkey, mbind, M_bind, lift.
  rewrite Hn, Hd, Hp, Hs, Hg.
  rewrite (sql_fields_meant data userid name description price species_id age)
    by done.
  unfold insert_animal_values.
  destruct (quoted_value (str name)); [|done].
  destruct (bare_int (int_str userid)); [|done].
  destruct (quoted_value (str description)); [|done].
  destruct Hnone as [-> | [-> | ->]].
  - unfold bare_real. simpl str. by rewrite Hreal.
  - destruct (bare_real _); [|done]. done.
  - destruct (bare_real _); [|done]. by destruct (bare_int (str species_id)).
Qed.

(** X19.  Whether they return or raise, the three [add_animal] leave the
    tables of centers and of species as they were and keep the
    identifiers of the animals unique: the ORM data access and the
    mapped class for fields of the type of their column, the SQL data
    access for fields that are carried intact into its statement. *)
Theorem add_animal_keeps (db : DB) (data : dict) (userid : Z) :
  (each_field typed data →
   animal_step db (AnimalORM_add_animal data userid db).2
   ∧ animal_step db (Animal_add_animal data userid db).2)
  ∧ (each_field sql_field data →
     animal_step db (AnimalsDAO_add_animal data userid db).2).
Proof.
  pose proof (insert_animal_step db) as Hins.
  split; [intros _; split|intros Hall].
  all: unfold AnimalsDAO_add_animal, AnimalORM_add_animal, Animal_add_animal,
         getkey, mbind, M_bind, lift.
  all: destruct (data !! "name") as [name|] eqn:Hn; [|by unfold animal_step].
  all: destruct (data !! "description") as [description|] eqn:Hd;
         [|by unfold animal_step].
  all: destruct (data !! "price") as [price|] eqn:Hp; [|by unfold animal_step].
  all: destruct (data !! "species_id") as [species_id|] eqn:Hs;
         [|by unfold animal_step].
  all: destruct (data !! "age") as [age|] eqn:Hg; [|by unfold animal_step].
  - match goal with |- context [insert_animal ?obj db] =>
      specialize (Hins obj); destruct (insert_animal obj db) as [[a|e] db']
    end; exact Hins.
  - match goal with |- context [insert_animal ?obj db] =>
      specialize (Hins obj); destruct (insert_animal obj db) as [[a|e] db']
    end; exact Hins.
  - rewrite (sql_fields_meant data userid name description price species_id age)
      by done.
    unfold insert_animal_values.
    destruct (quoted_value _); [|by unfold animal_step].
    destruct (bare_int _); [|by unfold animal_step].
    destruct (quoted_value _); [|by unfold animal_step].
    destruct (bare_real _); [|by unfold animal_step].
    destruct (bare_int _); [|by unfold animal_step].
    destruct (bare_int _); [|by unfold animal_step].
    match goal with |- context [insert_animal ?obj db] =>
      specialize (Hins obj); destruct (insert_animal obj db) as [[a|e] db']
    end; [|exact Hins].
    exact Hins.
Qed.

End adding.

(** ** Adding a species *)

Section adding_species.
Context `{Backend} `{Sequences}.

Lemma next_species_id_fresh (db : DB) :
  next_species_id db ∉ species.id <$> tbl_species db.
Proof.
  intros Hin%(next_id_above (clock db)). unfold next_species_id in Hin. lia.
Qed.

Lemma species_keys_snoc (db : DB) (s : species.row) :
  NoDup (species.id <$> tbl_species db) → species.id s = next_species_id db →
  NoDup (species.id <$> (tbl_species db ++ [s])%list).
Proof.
  intros Hpk Hid. rewrite fmap_app. apply NoDup_app. split; [done|]. split.
  - intros i Hi [->|[]%elem_of_nil]%elem_of_cons.
    rewrite Hid in Hi. by apply next_species_id_fresh in Hi.
  - apply NoDup_singleton.
Qed.

Lemma species_of_attrs_added (data : dict) (s : species.row) :
  added_species data (species.id s) s →
  ∃ name description price,
    data !! "name" = Some name ∧ data !! "description" = Some description
    ∧ data !! "price" = Some price
    ∧ species_of_attrs
        (<["id" := VInt (species.id s)]>
         (<["name" := name]> (<["description" := description]>
          (<["price" := price]> ∅))))
      = Some s.
Proof.
  intros (_ & Hf).
  apply Forall_cons in Hf as [Hn Hf]. apply Forall_cons in Hf as [Hd Hf].
  apply Forall_cons in Hf as [Hp _].
  exists (py_str (species.name s)), (py_str (species.description s)),
    (py_float (species.price s)).
  do 3 (split; [done|]).
  destruct s as [i [n|] [d|] [p|]]; reflexivity.
Qed.

(** X20.  Round trip for a species through the ORM: for a mapping with
    the three fields, [add_species] stores one new row under a fresh
    identifier and returns its long mapping; the animals are not
    touched.  When no animal refers to the new identifier,
    [get_species_inform] then returns that mapping with the empty list,
    and the listing has a row for the new species with the count 0. *)
Theorem add_species_then_detail (db : DB) (data : dict) (s : species.row) :
  NoDup (species.id <$> tbl_species db) →
  added_species data (next_species_id db) s →
  enforced (tbl_animal_center db) (tbl_animal db) (tbl_species db ++ [s])%list
  = true →
  ∃ db',
    SpeciesORM_add_species data db = (Return (species_long s), db')
    ∧ tbl_species db' = (tbl_species db ++ [s])%list
    ∧ tbl_animal db' = tbl_animal db
    ∧ (species.id s ∉ species.id <$> tbl_species db)
    ∧ (animals_of_species db (species.id s) = [] →
       (SpeciesORM.get_species_inform (species.id s) db').1
       = Return (Some (species_long s, []))
       ∧ (SpeciesDAO.get_species_inform (species.id s) db').1
         = Return (Some (species_long s, []))
       ∧ ∃ l, (SpeciesORM.get_species db').1 = Return l
            ∧ <["species_name" := py_str (species.name s)]>
                (<["count_of_animals" := VInt 0]> ∅) ∈ l).
Proof.
  intros Hpk Hadd Henf. pose proof Hadd as (Hid & _).
  rewrite <- Hid in Hadd.
  destruct (species_of_attrs_added data s Hadd)
    as (n & d & p & Hn & Hd & Hp & Hflush).
  rewrite Hid in Hflush.
  set (db' := with_species (tbl_species db ++ [s])%list db).
  assert (NoDup (species.id <$> tbl_species db')) as Hpk'
    by by apply species_keys_snoc.
  assert (s ∈ tbl_species db') as Hs by (simpl; apply elem_of_app; right; left).
  exists db'. split; [|split; [done|split; [done|split]]].
  - unfold SpeciesORM_add_species, getkey, mbind, M_bind, lift.
    rewrite Hn, Hd, Hp. unfold insert_species. fold (next_species_id db).
    by rewrite Hflush, Henf.
  - rewrite Hid. apply next_species_id_fresh.
  - intros Hnone.
    pose proof (first_by_key tbl_species species.id db' s Hpk' Hs) as Hfirst.
    split; [|split].
    + unfold SpeciesORM.get_species_inform, query_get, mbind, M_bind.
      rewrite Hfirst. unfold select, execute_query, lift. simpl.
      fold (animals_of_species db (species.id s)).
      by rewrite Hnone, row_order_nil.
    + unfold SpeciesDAO.get_species_inform, mbind, M_bind.
      rewrite Hfirst. unfold select, execute_query, lift. simpl.
      fold (animals_of_species db (species.id s)).
      by rewrite Hnone, row_order_nil.
    + destruct (orm_get_species_run db' Hpk') as (l & -> & _ & Hl).
      exists l. split; [done|]. rewrite Hl. apply list_elem_of_fmap.
      exists s. split; [|done]. unfold species_entry.
      change (animals_of_species db' (species.id s))
        with (animals_of_species db (species.id s)).
      by rewrite Hnone.
Qed.

Lemma select_last_species_new (db : DB) (l : list species.row) (s : species.row) :
  tbl_species db = (l ++ [s])%list →
  (∀ t, t ∈ l → species.id t < species.id s) →
  first select_last_species db = (Return (Some s), tick db).
Proof.
  intros Htbl Hmax.
  unfold first, select_last_species, execute_query, mbind, M_bind. simpl.
  rewrite Htbl.
  assert (filter (λ x : species.row,
                    Forall (λ t, (species.id t ≤ species.id x)%Z) (l ++ [s])%list)
                 (l ++ [s])%list = [s]) as ->; [|by rewrite row_order_singleton].
  rewrite filter_app, filter_none, filter_cons_True; [done| |].
  - apply Forall_app. split; [|by repeat constructor].
    apply Forall_forall. intros t Ht. apply Hmax in Ht. lia.
  - intros t Ht Hall. rewrite Forall_forall in Hall.
    assert (species.id s ≤ species.id t)%Z by (apply Hall, elem_of_app; right; left).
    apply Hmax in Ht. lia.
Qed.

Lemma execute_insert_species_meant (name description price : string) :
  has_quote name = false → has_quote description = false →
  bare_text bare_real price = true →
  execute_insert_species name description price
  = insert_species_values name description price.
Proof.
  intros Hn Hd Hp. unfold execute_insert_species. by rewrite Hn, Hd, Hp.
Qed.

(** X21.  [add_species] of the SQL data access: for strings without a
    quote and a float that the engine reads back as Python printed it,
    it does what [add_species] of the ORM data access does (the same
    outcome, the same table of species); when the price is [None], the
    word None is pasted bare, the statement is refused and nothing is
    stored. *)
Theorem sql_add_species (db : DB) (data : dict) (name description : string)
    (price : value) :
  data !! "name" = Some (VStr name) → has_quote name = false →
  data !! "description" = Some (VStr description) →
  has_quote description = false →
  data !! "price" = Some price →
  (∀ f, price = VFloat f → real_literal (float_str f) = Some f →
     (SpeciesDAO_add_species data db).1 = (SpeciesORM_add_species data db).1
     ∧ tbl_species (SpeciesDAO_add_species data db).2
       = tbl_species (SpeciesORM_add_species data db).2)
  ∧ (price = VNone → real_literal "None" = None →
     SpeciesDAO_add_species data db = (Raise SQLAlchemyError, db)).
Proof.
  intros Hn Hqn Hd Hqd Hp. split.
  - intros f -> Hrp.
    unfold SpeciesDAO_add_species, SpeciesORM_add_species, getkey, mbind,
      M_bind, lift.
    rewrite Hn, Hd, Hp. simpl str.
    rewrite execute_insert_species_meant
      by first [done | by apply (bare_text_real _ f)].
    unfold insert_species_values, quoted_value, bare_real.
    rewrite Hqn, Hqd, Hrp. simpl fmap. cbv beta iota.
    set (s := species.mk (next_species_id db) (Some name) (Some description)
                (Some f)).
    match goal with |- context [insert_species ?obj db] =>
      assert (insert_species obj db
              = if enforced (tbl_animal_center db) (tbl_animal db)
                            (tbl_species db ++ [s])%list
                then (Return s, with_species (tbl_species db ++ [s])%list db)
                else (Raise SQLAlchemyError, db)) as -> by reflexivity
    end.
    destruct (enforced _ _ _); [|by split].
    erewrite select_last_species_new; [by split|reflexivity|].
    intros t Ht. simpl. apply (next_id_above (clock db)).
    apply list_elem_of_fmap. eauto.
  - intros -> Hreal.
    unfold SpeciesDAO_add_species, getkey, mbind, M_bind, lift.
    rewrite Hn, Hd, Hp. simpl str.
    rewrite execute_insert_species_meant
      by first [done | apply bare_text_None].
    unfold insert_species_values, quoted_value, bare_real.
    by rewrite Hqn, Hqd, Hreal.
Qed.

End adding_species.

(** ** The operations that only read *)

Section read_only.
Context `{Backend}.

Lemma read_only_ret {A} (a : A) : read_only (mret a).
Proof. by intros db. Qed.

Lemma read_only_raise {A} (e : exn) : read_only (@raise A e).
Proof. by intros db. Qed.

Lemma read_only_lift {A} (o : outcome A) : read_only (lift o).
Proof. by intros db. Qed.

Lemma read_only_query {A} (rows : DB → list A) : read_only (execute_query rows).
Proof. by intros db. Qed.

Lemma read_only_bind {A B} (m : M A) (f : A → M B) :
  read_only m → (∀ a, read_only (f a)) → read_only (m ≫= f).
Proof.
  intros Hm Hf db. unfold mbind, M_bind. specialize (Hm db).
  destruct (m db) as [[a|e] db1]; [|done].
  specialize (Hf a db1). destruct Hm as (H1 & H2 & H3), Hf as (H4 & H5 & H6).
  simpl in *. repeat split; congruence.
Qed.

Lemma read_only_fmap {A B} (g : A → B) (m : M A) :
  read_only m → read_only (g <$> m).
Proof.
  intros Hm db. unfold fmap, M_fmap. specialize (Hm db).
  by destruct (m db).
Qed.

Ltac read_only_step :=
  first
    [ apply read_only_ret | apply read_only_raise | apply read_only_lift
    | apply read_only_query | apply read_only_fmap
    | apply read_only_bind; [|intros ?]
    | match goal with
      | |- read_only (match ?x with _ => _ end) => destruct x
      | |- read_only (if ?b then _ else _) => destruct b
      end ].

Ltac read_only_tac :=
  unfold first, query_get, select; cbv zeta; repeat read_only_step.

(** X22.  The operations that list, get and check never write: whether
    they return or raise, the tables of centers, animals and species
    are afterwards what they were before.  For the lookup by login of
    the SQL data access this is for a login without a quote: the login
    is pasted into the statement, and with a quote in it the text is
    another statement. *)
Theorem reads_keep_tables (id : Z) (user_login password : string) :
  (read_only AnimalsDAO.get_animals ∧ read_only AnimalORM.get_animals
   ∧ read_only Animal.get_animals)
  ∧ (read_only (AnimalsDAO.get_animal id) ∧ read_only (AnimalORM.get_animal id)
     ∧ read_only (Animal.get_animal id))
  ∧ (read_only AnimalCentersDAO.get_centers
     ∧ read_only AnimalCenterORM.get_centers
     ∧ read_only AnimalCenter.get_centers)
  ∧ (read_only (AnimalCentersDAO.get_center_inform id)
     ∧ read_only (AnimalCenterORM.get_center_inform id)
     ∧ read_only (AnimalCenter.get_center_inform id))
  ∧ ((has_quote user_login = false →
      read_only (AnimalCentersDAO.get_center_by_login user_login))
     ∧ read_only (AnimalCenterORM.get_center_by_login user_login)
     ∧ read_only (AnimalCenter.get_center_by_login user_login))
  ∧ (read_only (AnimalCentersDAO.check_password password id)
     ∧ read_only (AnimalCenterORM.check_password password id))
  ∧ (read_only SpeciesDAO.get_species ∧ read_only SpeciesORM.get_species
     ∧ read_only Species.get_species)
  ∧ (read_only (SpeciesDAO.get_species_inform id)
     ∧ read_only (SpeciesORM.get_species_inform id)
     ∧ read_only (Species.get_species_inform id)).
Proof.
  repeat match goal with |- _ ∧ _ => split end.
  all: try intros Hq.
  all: unfold AnimalsDAO.get_animals, AnimalORM.get_animals, Animal.get_animals,
         AnimalsDAO.get_animal, AnimalORM.get_animal, Animal.get_animal,
         AnimalCentersDAO.get_centers, AnimalCenterORM.get_centers,
         AnimalCenter.get_centers, AnimalCentersDAO.get_center_inform,
         AnimalCenterORM.get_center_inform, AnimalCenter.get_center_inform,
         AnimalCentersDAO.get_center_by_login,
         AnimalCenterORM.get_center_by_login,
         AnimalCenter.get_center_by_login, AnimalCentersDAO.check_password,
         AnimalCenterORM.check_password, SpeciesDAO.get_species,
         SpeciesORM.get_species, Species.get_species,
         SpeciesDAO.get_species_inform, SpeciesORM.get_species_inform,
         Species.get_species_inform.
  all: try rewrite Hq.
  all: read_only_tac.
Qed.

End read_only.

(** ** The theorems above on [shop] *)

Lemma get_animal_agree_witness :
  @AnimalsDAO.get_animal test_backend 1 shop
  = (Return (Some (animal.attrs rex)), tick shop).
Proof.
  apply (@get_animal_agree test_backend shop rex); compute_done.
Defined.

Lemma check_password_agree_witness :
  @AnimalCentersDAO.check_password test_backend "pw" 10 shop
  = (@AnimalCenter.check_password test_backend north "pw" None, tick shop).
Proof.
  apply (@check_password_agree test_backend shop north "pw" None); compute_done.
Defined.

Lemma sql_center_detail_witness :
  ∃ animals,
    @AnimalCentersDAO.get_center_inform test_backend 10 shop
    = (Return (Some (center_long north, animals)), tick (tick shop))
    ∧ animals ≡ₚ animal_short <$> animals_of_center shop 10
    ∧ (animals_of_center shop 10 = [] → animals = []).
Proof.
  apply (@sql_center_detail test_backend shop north); compute_done.
Defined.

Lemma species_detail_witness :
  ∃ rows, rows ≡ₚ animals_of_species shop 100
    ∧ @SpeciesDAO.get_species_inform test_backend 100 shop
      = (Return (Some (species_long dog, animal_short <$> rows)),
         tick (tick shop)).
Proof.
  apply (@species_detail test_backend shop dog); compute_done.
Defined.

Lemma get_center_by_login_present_witness :
  ∃ c, c ∈ tbl_animal_center shop ∧ animal_center.login c = Some "north"
     ∧ @AnimalCenterORM.get_center_by_login test_backend "north" shop
       = (Return (Some c), tick shop).
Proof.
  apply (@get_center_by_login_present test_backend shop "north"); compute_done.
Defined.

Lemma delete_animal_stored_witness :
  ∃ db', AnimalsDAO.delete_animal 2 shop = (Return (), db')
       ∧ deleted shop 2 db'.
Proof.
  apply (@delete_animal_stored test_backend shop 2); compute_done.
Defined.

Lemma delete_animal_again_witness :
  ∃ db', @AnimalORM.delete_animal test_backend 2 shop = (Return (), db')
    ∧ (@AnimalsDAO.get_animal test_backend 2 db').1 = Return None
    ∧ (@AnimalORM.get_animal test_backend 2 db').1 = Return None
    ∧ (@AnimalORM.delete_animal test_backend 2 db').1
      = Raise UnmappedInstanceError
    ∧ tbl_animal (AnimalsDAO.delete_animal 2 db').2
      = tbl_animal db'.
Proof.
  apply (@delete_animal_again test_backend shop 2); compute_done.
Defined.

Lemma species_listings_differ_witness :
  ∃ l_sql l_orm,
    @SpeciesDAO.get_species test_backend shop = (Return l_sql, tick shop)
    ∧ @SpeciesORM.get_species test_backend shop = (Return l_orm, tick shop)
    ∧ l_sql ≡ₚ name_entry shop <$> remove_dups (species.name <$> tbl_species shop)
    ∧ l_orm ≡ₚ species_entry shop <$> tbl_species shop
    ∧ (length l_sql < length l_orm)%nat
    ∧ ¬ l_sql ≡ₚ l_orm.
Proof.
  destruct (@species_listings_differ test_backend shop)
    as (l_sql & l_orm & Hsql & Horm & Hp_sql & _ & Hrest).
  destruct Hrest as (Hp_orm & _ & Hdiff); [compute_done|].
  destruct (Hdiff dog dog') as (Hlt & _ & Hperm); [compute_done..|reflexivity|].
  by exists l_sql, l_orm.
Defined.

Lemma orm_species_listing_witness :
  ∃ l, @SpeciesORM.get_species test_backend shop = (Return l, tick shop)
     ∧ l ≡ₚ species_entry shop <$> tbl_species shop
     ∧ ∀ s, s ∈ tbl_species shop → species_entry shop s ∈ l.
Proof.
  apply (@orm_species_listing test_backend shop); compute_done.
Defined.

Lemma species_listings_agree_witness :
  ∃ l_sql l_orm,
    @SpeciesDAO.get_species test_backend small_shop
    = (Return l_sql, tick small_shop)
    ∧ @SpeciesORM.get_species test_backend small_shop
      = (Return l_orm, tick small_shop)
    ∧ l_sql ≡ₚ l_orm.
Proof.
  apply (@species_listings_agree test_backend small_shop); compute_done.
Defined.

Lemma update_then_get_witness :
  ∃ db',
    @AnimalORM.update_animal test_backend None (Some rex_update) 1 shop
    = (Return (), db')
    ∧ @Animal.update_animal test_backend None (Some rex_update) 1 shop
      = (Return (), db')
    ∧ (@AnimalORM.get_animal test_backend 1 db').1
      = Return (Some (animal.attrs older_rex))
    ∧ (∀ b, b ∈ tbl_animal shop → animal.id b ≠ 1 →
            (@AnimalORM.get_animal test_backend (animal.id b) db').1
            = Return (Some (animal.attrs b))).
Proof.
  apply (@update_then_get test_backend shop rex older_rex None rex_update).
  - unfold animal_keys_unique. compute_done.
  - compute_done.
  - split; [reflexivity|]. unfold animal_columns. compute_done.
  - reflexivity.
Defined.

Lemma dao_update_animal_errors_witness :
  @AnimalsDAO.update_animal test_backend
    (Some (<["name" := VStr "Max"]> ∅)) None None shop
  = (Raise KeyError, shop)
  ∧ @AnimalsDAO.update_animal test_backend
      (Some (<["id" := VInt 1]> ∅)) None None shop
    = (Raise SQLAlchemyError, shop).
Proof.
  split.
  - apply (@dao_update_animal_errors test_backend shop
             (<["name" := VStr "Max"]> ∅) VNone None None None None).
    reflexivity.
  - apply (@dao_update_animal_errors test_backend shop
             (<["id" := VInt 1]> ∅) (VInt 1) None None None None);
      reflexivity.
Defined.

Lemma sql_update_as_setattr_witness :
  (@AnimalsDAO.update_animal test_backend (Some rex_renamed) None None shop).1
  = (@AnimalORM.update_animal test_backend None
       (Some (delete "id" rex_renamed)) 1 shop).1
  ∧ tbl_animal
      (@AnimalsDAO.update_animal test_backend (Some rex_renamed) None None shop).2
    = tbl_animal
        (@AnimalORM.update_animal test_backend None
           (Some (delete "id" rex_renamed)) 1 shop).2.
Proof.
  apply (@sql_update_as_setattr test_backend shop rex rex_renamed None None None).
  - unfold animal_keys_unique. compute_done.
  - compute_done.
  - reflexivity.
  - compute_done.
  - compute_done.
Defined.

Lemma add_animal_then_get_witness :
  ∃ db',
    @AnimalORM_add_animal test_backend test_sequences felix_data 10 shop
    = (Return (animal_short felix), db')
    ∧ tbl_animal db' = (tbl_animal shop ++ [felix])%list
    ∧ (@AnimalORM.get_animal test_backend 4 db').1
      = Return (Some (animal.attrs felix)).
Proof.
  destruct (@add_animal_then_get test_backend test_sequences shop felix_data
              10 felix) as (db' & Hadd & _ & Htbl & _ & Hget & _).
  - unfold animal_keys_unique. compute_done.
  - split; [reflexivity|split; [reflexivity|compute_done]].
  - reflexivity.
  - by exists db'.
Defined.

Lemma add_animal_missing_key_witness :
  @AnimalsDAO_add_animal test_backend test_sequences
    (delete "age" felix_data) 10 shop
  = (Raise KeyError, shop).
Proof.
  apply (@add_animal_missing_key test_backend test_sequences shop
           (delete "age" felix_data) 10 "age"); compute_done.
Defined.

Lemma sql_add_animal_as_orm_witness :
  (@AnimalsDAO_add_animal float_backend test_sequences felix_data 10 shop).1
  = (@AnimalORM_add_animal float_backend test_sequences felix_data 10 shop).1
  ∧ (@AnimalsDAO_add_animal float_backend test_sequences felix_data 10 shop).1
    = Return (animal_short felix).
Proof.
  split; [|reflexivity].
  apply (@sql_add_animal_as_orm float_backend test_sequences shop felix_data 10
           "Felix" "shy" (S754_zero false) 101 2); reflexivity.
Defined.

Lemma sql_add_animal_none_witness :
  @AnimalsDAO_add_animal test_backend test_sequences
    (<["price" := VNone]> felix_data) 10 shop
  = (Raise SQLAlchemyError, shop).
Proof.
  apply (@sql_add_animal_none test_backend test_sequences shop
           (<["price" := VNone]> felix_data) 10
           (VStr "Felix") (VStr "shy") VNone (VInt 101) (VInt 2));
    try reflexivity.
  - compute_done.
  - by left.
Defined.

Lemma animal_operations_keep_witness :
  animal_step shop
    (@AnimalsDAO.update_animal test_backend (Some rex_renamed) None None shop).2
  ∧ animal_step shop
      (@AnimalORM.update_animal test_backend None (Some rex_update) 1 shop).2.
Proof.
  split.
  - apply (@animal_operations_keep test_backend shop (Some rex_renamed) None
             1 None).
    compute_done.
  - apply (@animal_operations_keep test_backend shop None (Some rex_update)
             1 None).
    compute_done.
Defined.

Lemma add_animal_keeps_witness :
  animal_step shop
    (@AnimalORM_add_animal float_backend test_sequences felix_data 10 shop).2
  ∧ animal_step shop
      (@AnimalsDAO_add_animal float_backend test_sequences felix_data 10 shop).2.
Proof.
  split.
  - apply (@add_animal_keeps float_backend test_sequences shop felix_data 10).
    compute_done.
  - apply (@add_animal_keeps float_backend test_sequences shop felix_data 10).
    compute_done.
Defined.

Lemma reads_keep_tables_witness :
  read_only (@AnimalCentersDAO.get_center_by_login test_backend "north").
Proof.
  apply (@reads_keep_tables test_backend 10 "north" "pw"). reflexivity.
Defined.

Lemma add_species_then_detail_witness :
  ∃ db',
    @SpeciesORM_add_species test_backend test_sequences bird_data shop
    = (Return (species_long bird), db')
    ∧ tbl_species db' = (tbl_species shop ++ [bird])%list
    ∧ (@SpeciesORM.get_species_inform test_backend 103 db').1
      = Return (Some (species_long bird, [])).
Proof.
  destruct (@add_species_then_detail test_backend test_sequences shop
              bird_data bird) as (db' & Hadd & Htbl & _ & _ & Hdetail).
  - compute_done.
  - split; [reflexivity|compute_done].
  - reflexivity.
  - exists db'. split; [done|split; [done|]]. by apply Hdetail.
Defined.

Lemma sql_add_species_witness :
  (@SpeciesDAO_add_species float_backend test_sequences bird_data shop).1
  = (@SpeciesORM_add_species float_backend test_sequences bird_data shop).1
  ∧ @SpeciesDAO_add_species test_backend test_sequences
      (<["price" := VNone]> bird_data) shop
    = (Raise SQLAlchemyError, shop).
Proof.
  split.
  - destruct (@sql_add_species float_backend test_sequences shop bird_data
                "bird" "sings" (VFloat (S754_zero false))) as [Hfloat _];
      [reflexivity..|].
    by apply (Hfloat (S754_zero false)).
  - destruct (@sql_add_species test_backend test_sequences shop
                (<["price" := VNone]> bird_data) "bird" "sings" VNone)
      as [_ Hnone]; [reflexivity..|].
    by apply Hnone.
Defined.

Lemma lookups_absent_witness :
  (@AnimalCentersDAO.get_center_inform test_backend 12 shop).1 = Return None
  ∧ (@AnimalCenterORM.get_center_inform test_backend 12 shop).1 = Return None
  ∧ (@AnimalCenter.get_center_inform test_backend 12 shop).1 = Return None.
Proof.
  apply (@lookups_absent test_backend shop 12 "nobody"). compute_done.
Defined.
